(** * A two-tier cache in front of a remote store: model of [cache.go]

    The development embeds the first revision contained in [cache.go]
    (types [Item], [Options], [Cache]) as state-passing Rocq functions and
    proves the properties of its TTL handling, of [Delete], of the
    [Set]/[Get] round trip and of the decode-failure handling of [Once]. *)

From Stdlib Require Import ZArith Lia Bool.
From Stdlib Require Import Strings.Byte.
From stdpp Require Import base option list strings gmap.

Local Open Scope Z_scope.

(** ** Time

    [time.Duration] is a signed 64-bit count of nanoseconds; an instant
    ([time.Time]) is represented by its count of nanoseconds since the Unix
    epoch.  The code never does arithmetic on a duration, it only compares
    them, so no wrap-around arises on [Duration] values themselves;
    [time.Since] saturates at the bounds of [Duration]. *)

Abbreviation Duration := Z (only parsing).
Abbreviation Time := Z (only parsing).

Definition Millisecond : Duration := 1000000.
Definition Second : Duration := 1000000000.
Definition Minute : Duration := 60 * Second.
Definition Hour : Duration := 60 * Minute.

Definition minDuration : Duration := - 2 ^ 63.
Definition maxDuration : Duration := 2 ^ 63 - 1.

(** [time.Since(tm)] read at the instant [now]: [now.Sub(tm)], which
    returns the extreme duration when the difference is not representable. *)
Definition Since (now tm : Time) : Duration :=
  Z.max minDuration (Z.min maxDuration (now - tm)).

(** ** Errors

    The two sentinel errors of the package, the [redis.Nil] sentinel of the
    client library, and any other error value (transport errors, failures
    of the serializer or of the caller's function), identified by its
    message.  A Go [error] that may be [nil] is an [option error]. *)
Inductive error : Type :=
| ErrCacheMiss
| errRedisLocalCacheNil
| redis_Nil
| errorString (msg : string).

Definition is_redis_Nil (e : error) : bool :=
  match e with redis_Nil => true | _ => false end.

(** The error a call without any tier ends with: the error of the
    caller's function if it failed, else the error of the serializer if it
    failed, else the configuration error. *)
Definition firstError (funcErr marshalErr : option error) : error :=
  match funcErr, marshalErr with
  | Some e, _ => e
  | None, Some e => e
  | None, None => errRedisLocalCacheNil
  end.

(** ** Bytes *)

Abbreviation bytes := (list byte) (only parsing).

(** The four bytes of a write timestamp, as [encodeTime] leaves them in the
    4-byte slice it is handed and as [decodeTime] reads them back. *)
Definition stamp : Type := byte * byte * byte * byte.

Definition stamp_bytes (q : stamp) : bytes :=
  let '(a, b, c, d) := q in [a; b; c; d].

Definition stamp_of (l : bytes) : stamp :=
  match l with
  | [a; b; c; d] => (a, b, c, d)
  | _ => (x00, x00, x00, x00)
  end.

(** ** The remote store

    [rediser] is the interface through which the cache talks to Redis.  An
    implementation is a type of store states with the three commands; each
    command returns the new state of the store and the result of the
    command ([StatusCmd.Err], [StringCmd.Bytes], [IntCmd.Result]). *)
Class rediser (R : Type) : Type := {
  redis_Set : string -> bytes -> Duration -> R -> R * option error;
  redis_Get : string -> R -> R * (bytes * option error);
  redis_Del : string -> R -> R * (Z * option error)
}.

(** ** The serializer and the timestamp codec

    [marshal], [unmarshal], [encodeTime] and [decodeTime] are defined
    outside [cache.go]; the cache is modelled over any implementation of
    them.  [marshal] receives an [interface{}] that may be [nil]; the
    scratch buffer it is given is a performance device and is left out.
    [unmarshal b v] decodes [b] into a target currently holding [v] and
    returns what the target holds afterwards, with the error.
    [encodeTime] fills the 4-byte slice it is handed. *)
Class serializer (V : Type) : Type := {
  marshal : option V -> bytes * option error;
  unmarshal : bytes -> V -> V * option error
}.

Class timeCodec : Type := {
  encodeTime : Time -> stamp;
  decodeTime : stamp -> Time
}.

(** ** The local cache

    [fastcache.Cache] is an imported package: a byte-keyed store without
    expiration.  It is modelled by a finite map.  [Set] stores an entry
    only if it fits a chunk of 64KB together with its 4-byte header, and
    otherwise returns without storing anything (an entry already held
    under the key stays).  Eviction under capacity pressure is not
    modelled: the statements about entries read back hold as long as the
    cache has not evicted them. *)
Abbreviation fastcache := (gmap string (list byte)) (only parsing).

Definition chunkSize : Z := 64 * 1024.

(** [fastcache.Cache.Set]: a key or a value of [1 << 16] bytes or more, or
    an entry that does not fit a chunk, is skipped. *)
Definition fastcache_Set (lc : fastcache) (k : string) (v : bytes) : fastcache :=
  if (Z.of_nat (String.length k) >=? 2 ^ 16) || (Z.of_nat (length v) >=? 2 ^ 16) then lc
  else if 4 + Z.of_nat (String.length k) + Z.of_nat (length v) >=? chunkSize then lc
  else <[k := v]> lc.

(** The entries that [Set] stores. *)
Definition fastcache_keeps (k : string) (v : bytes) : Prop :=
  4 + Z.of_nat (String.length k) + Z.of_nat (length v) < chunkSize.

Definition fastcache_HasGet (lc : fastcache) (k : string) : bytes * bool :=
  match lc !! k with
  | Some v => (v, true)
  | None => ([], false)
  end.

Definition fastcache_Del (lc : fastcache) (k : string) : fastcache :=
  delete k lc.

(** ** Calls on the collaborators

    A ghost trace of the calls made on the caller's function, on the
    decoder and on the remote store, in the order in which they happen. *)
Inductive event : Type :=
| CallFunc
| CallUnmarshal (b : bytes)
| CallRedisSet (key : string) (b : bytes) (exp : Duration)
| CallRedisGet (key : string)
| CallRedisDel (key : string).

(** ** Outcomes of a computation

    A call returns a value and the new state, or panics, or (for the model
    of a recursive function) exhausts the recursion budget it was given. *)
Inductive res (S A : Type) : Type :=
| Ok (a : A) (s : S)
| Panicked (msg : string)
| OutOfFuel.

Arguments Ok {S A} a s.
Arguments Panicked {S A} msg.
Arguments OutOfFuel {S A}.

Definition M (S A : Type) : Type := S -> res S A.

Definition ret {S A} (a : A) : M S A := fun s => Ok a s.

Definition bind {S A B} (m : M S A) (k : A -> M S B) : M S B :=
  fun s =>
    match m s with
    | Ok a s' => k a s'
    | Panicked msg => Panicked msg
    | OutOfFuel => OutOfFuel
    end.

Definition panic {S A} (msg : string) : M S A := fun _ => Panicked msg.

(** The state a computation left, if it returned. *)
Definition final {S A} (r : res S A) : option S :=
  match r with
  | Ok _ s => Some s
  | _ => None
  end.

(** The value a computation returned, if it returned. *)
Definition result {S A} (r : res S A) : option A :=
  match r with
  | Ok a _ => Some a
  | _ => None
  end.

Notation "'let*' x ':=' m 'in' k" := (bind m (fun x => k))
  (at level 10, x name, m at level 100, k at level 200).
Notation "'let*' ' p ':=' m 'in' k" := (bind m (fun x => match x with p => k end))
  (at level 10, p pattern, m at level 100, k at level 200).
Notation "m1 ';;;' m2" := (bind m1 (fun _ => m2))
  (at level 100, m2 at level 200, right associativity).

(** [atomic.AddUint64(&n, 1)] *)
Definition AddUint64 (n : Z) : Z := (n + 1) mod 2 ^ 64.

Section CacheModel.

(** [V] is the type of cached values, [U] the state the caller's function
    may read and change, [R] the state of the remote store. *)
Context {V U R : Type} {redis : rediser R} {ser : serializer V} {codec : timeCodec}.

(** *** Item *)

(** [Value] is the value to cache for [Set], and the decode target for
    [Get] and [Once]: [None] is the [nil] interface, [Some v] a target
    currently holding [v].  [Func] may be [nil].  [Ctx] is carried by the
    source but never consulted by it, and is left out. *)
Record Item : Type := mkItem {
  Key : string;
  Value : option V;
  TTL : Duration;
  Func : option (U -> U * (option V * option error))
}.

Definition exp (item : Item) : Duration :=
  if TTL item <? 0 then 0
  else if TTL item <? Second then Hour
  else TTL item.

(** *** Options and Cache *)

(** A handle that is [nil] is [None]; a handle that is present is
    identified with the store it points to. *)
Record Options : Type := mkOptions {
  Redis : option R;
  LocalCache : option fastcache;
  LocalCacheTTL : Duration;
  StatsEnabled : bool
}.

Definition init (o : Options) : Options :=
  if LocalCacheTTL o =? -1 then
    mkOptions (Redis o) (LocalCache o) 0 (StatsEnabled o)
  else if LocalCacheTTL o =? 0 then
    mkOptions (Redis o) (LocalCache o) Minute (StatsEnabled o)
  else o.

Record Cache : Type := mkCache {
  opt : Options;
  hits : Z;
  misses : Z
}.

Definition New (o : Options) : Cache := mkCache (init o) 0 0.

(** The state a call runs in: the cache, the clock read by [time.Now] and
    [time.Since] (constant during a call; the environment moves it between
    calls), the state of the caller's function, and the ghost trace. *)
Record state : Type := mkState {
  cd : Cache;
  clock : Time;
  env : U;
  calls : list event
}.

Abbreviation Go := (M state) (only parsing).

Definition getOpt : Go Options := fun s => Ok (opt (cd s)) s.

Definition Now : Go Time := fun s => Ok (clock s) s.

Definition withLocalCache (lc : fastcache) (s : state) : state :=
  let o := opt (cd s) in
  mkState
    (mkCache (mkOptions (Redis o) (Some lc) (LocalCacheTTL o) (StatsEnabled o))
             (hits (cd s)) (misses (cd s)))
    (clock s) (env s) (calls s).

Definition withRedis (r : R) (s : state) : state :=
  let o := opt (cd s) in
  mkState
    (mkCache (mkOptions (Some r) (LocalCache o) (LocalCacheTTL o) (StatsEnabled o))
             (hits (cd s)) (misses (cd s)))
    (clock s) (env s) (calls s).

Definition withCall (e : event) (s : state) : state :=
  mkState (cd s) (clock s) (env s) (calls s ++ [e]).

Definition putLocalCache (lc : fastcache) : Go unit := fun s =>
  Ok tt (withLocalCache lc s).

Definition putRedis (r : R) : Go unit := fun s => Ok tt (withRedis r s).

Definition addHit : Go unit := fun s =>
  Ok tt (mkState (mkCache (opt (cd s)) (AddUint64 (hits (cd s))) (misses (cd s)))
                 (clock s) (env s) (calls s)).

Definition addMiss : Go unit := fun s =>
  Ok tt (mkState (mkCache (opt (cd s)) (hits (cd s)) (AddUint64 (misses (cd s))))
                 (clock s) (env s) (calls s)).

Definition log (e : event) : Go unit := fun s => Ok tt (withCall e s).

(** Calling the caller's function: it runs on the caller's state. *)
Definition callFunc (f : U -> U * (option V * option error))
  : Go (option V * option error) := fun s =>
  let '(u, r) := f (env s) in
  Ok r (mkState (cd s) (clock s) u (calls s ++ [CallFunc])).

(** [item.value()] *)
Definition value (item : Item) : Go (option V * option error) :=
  match Value item with
  | Some v => ret (Some v, None)
  | None =>
      match Func item with
      | Some f => callFunc f
      | None => ret (None, None)
      end
  end.

(** The environment between two calls: time passes until the clock reads
    [t]. *)
Definition sleepUntil (t : Time) : Go unit := fun s =>
  Ok tt (mkState (cd s) t (env s) (calls s)).

(** *** The local tier *)

(** [cd.localSet(key, b)].  Called only where [LocalCache] is not [nil]. *)
Definition localSet (key : string) (b : bytes) : Go unit :=
  let* o := getOpt in
  let* now := Now in
  let b :=
    if 0 <? LocalCacheTTL o then b ++ stamp_bytes (encodeTime now) else b in
  match LocalCache o with
  | None => panic "nil pointer dereference"
  | Some lc => putLocalCache (fastcache_Set lc key b)
  end.

(** [cd.localGet(key)] *)
Definition localGet (key : string) : Go (bytes * bool) :=
  let* o := getOpt in
  match LocalCache o with
  | None => panic "nil pointer dereference"
  | Some lc =>
      let '(b, ok) := fastcache_HasGet lc key in
      if negb ok then ret (b, false)
      else if (Z.of_nat (length b) =? 0) || (LocalCacheTTL o =? 0) then ret (b, true)
      else if Z.of_nat (length b) <=? 4 then panic "not reached"
      else
        let tm := decodeTime (stamp_of (drop (length b - 4) b)) in
        let* now := Now in
        if Since now tm >? LocalCacheTTL o then ret ([], false)
        else ret (take (length b - 4) b, true)
  end.

(** *** Writing *)

(** [cd.set(ctx, key, value, exp, buf)] *)
Definition set (key : string) (v : option V) (e : Duration)
  : Go (bytes * option error) :=
  let '(b, err) := marshal v in
  match err with
  | Some err => ret ([], Some err)
  | None =>
      let* o := getOpt in
      (match LocalCache o with
       | Some _ => localSet key b
       | None => ret tt
       end) ;;;
      let* o := getOpt in
      match Redis o with
      | None =>
          match LocalCache o with
          | None => ret ([], Some errRedisLocalCacheNil)
          | Some _ => ret (b, None)
          end
      | Some r =>
          let '(r', err) := redis_Set key b e r in
          putRedis r' ;;;
          log (CallRedisSet key b e) ;;;
          ret (b, err)
      end
  end.

(** [cd.Set(item)] *)
Definition Set_ (item : Item) : Go (option error) :=
  let* '(v, err) := value item in
  match err with
  | Some err => ret (Some err)
  | None =>
      let* '(_, err) := set (Key item) v (exp item) in
      ret err
  end.

(** *** Reading *)

(** [cd.getBytes(key)] *)
Definition getBytes (key : string) : Go (bytes * option error) :=
  let* o := getOpt in
  let* '(b, ok) :=
    match LocalCache o with
    | Some _ => localGet key
    | None => ret ([], false)
    end in
  if ok then ret (b, None)
  else
    match Redis o with
    | None =>
        match LocalCache o with
        | None => ret ([], Some errRedisLocalCacheNil)
        | Some _ => ret ([], Some ErrCacheMiss)
        end
    | Some r =>
        let '(r', (b, err)) := redis_Get key r in
        putRedis r' ;;;
        log (CallRedisGet key) ;;;
        match err with
        | Some err =>
            (if StatsEnabled o then addMiss else ret tt) ;;;
            if is_redis_Nil err then ret ([], Some ErrCacheMiss)
            else ret ([], Some err)
        | None =>
            (if StatsEnabled o then addHit else ret tt) ;;;
            (match LocalCache o with
             | Some _ => localSet key b
             | None => ret tt
             end) ;;;
            ret (b, None)
        end
    end.

(** [cd.get(ctx, key, value)]: the error, and what the target holds when
    the call returns. *)
Definition get (key : string) (target : option V) : Go (option error * option V) :=
  let* '(b, err) := getBytes key in
  match err with
  | Some err => ret (Some err, target)
  | None =>
      match target with
      | None => ret (None, target)
      | Some tgt =>
          if Z.of_nat (length b) =? 0 then ret (None, target)
          else
            log (CallUnmarshal b) ;;;
            let '(v, err) := unmarshal b tgt in
            ret (err, Some v)
      end
  end.

(** [cd.Get(ctx, key, value)] *)
Definition Get (key : string) (target : option V) : Go (option error * option V) :=
  get key target.

(** [cd.Exists(ctx, key)] *)
Definition Exists (key : string) : Go bool :=
  let* '(err, _) := Get key None in
  ret (match err with None => true | Some _ => false end).

(** *** Deleting *)

(** [cd.Delete(ctx, key)] *)
Definition Delete (key : string) : Go (option error) :=
  let* o := getOpt in
  (match LocalCache o with
   | Some lc => putLocalCache (fastcache_Del lc key)
   | None => ret tt
   end) ;;;
  match Redis o with
  | None =>
      match LocalCache o with
      | None => ret (Some errRedisLocalCacheNil)
      | Some _ => ret None
      end
  | Some r =>
      let '(r', (deleted, err)) := redis_Del key r in
      putRedis r' ;;;
      log (CallRedisDel key) ;;;
      match err with
      | Some err => ret (Some err)
      | None => if deleted =? 0 then ret (Some ErrCacheMiss) else ret None
      end
  end.

(** *** Once *)

(** The function handed to [cd.group.Do] in [getSetItemBytesOnce]: the
    bytes, the [cached] variable of the enclosing call as the function
    leaves it, and the error. *)
Definition onceFn (item : Item) : Go (bytes * bool * option error) :=
  let* '(b, err) := getBytes (Key item) in
  match err with
  | None => ret (b, true, None)
  | Some _ =>
      match Func item with
      | None => panic "nil pointer dereference"
      | Some f =>
          let* '(v, err) := callFunc f in
          match err with
          | Some err => ret ([], false, Some err)
          | None =>
              let* '(b, err) := set (Key item) v (exp item) in
              match err with
              | Some err => ret ([], false, Some err)
              | None => ret (b, false, None)
              end
          end
      end
  end.

(** [cd.getSetItemBytesOnce(item)], for a call that finds no other call in
    flight for its key: [singleflight.Group.Do] (an imported package) then
    runs the function it is given in the calling goroutine and returns what
    the function returns. *)
Definition getSetItemBytesOnce (item : Item) : Go (bytes * bool * option error) :=
  let* o := getOpt in
  let* '(b, ok) :=
    match LocalCache o with
    | Some _ => localGet (Key item)
    | None => ret ([], false)
    end in
  if ok then ret (b, true, None)
  else
    let* '(v, cached, err) := onceFn item in
    match err with
    | Some err => ret ([], false, Some err)
    | None => ret (v, cached, None)
    end.

(** The item, its target holding [v] after a decoding attempt. *)
Definition withTarget (item : Item) (v : V) : Item :=
  mkItem (Key item) (Some v) (TTL item) (Func item).

(** [cd.Once(item)]: the error, and what the target [item.Value] holds when
    the call returns.  The source recurses without bound; [fuel] bounds the
    depth of the recursion. *)
Fixpoint Once (fuel : nat) (item : Item) : Go (option error * option V) :=
  match fuel with
  | O => fun _ => OutOfFuel
  | S fuel =>
      let* '(b, cached, err) := getSetItemBytesOnce item in
      match err with
      | Some err => ret (Some err, Value item)
      | None =>
          match Value item with
          | None => ret (None, Value item)
          | Some tgt =>
              if Z.of_nat (length b) =? 0 then ret (None, Value item)
              else
                log (CallUnmarshal b) ;;;
                let '(v, err) := unmarshal b tgt in
                match err with
                | None => ret (None, Some v)
                | Some err =>
                    if cached then
                      Delete (Key item) ;;;
                      Once fuel (withTarget item v)
                    else ret (Some err, Some v)
                end
          end
      end
  end.

(** *** Derived notions used in the statements *)

(** What [localSet] hands to the local cache for the payload [b], under the
    window [w], when the clock reads [now]. *)
Definition stored (w : Duration) (now : Time) (b : bytes) : bytes :=
  if 0 <? w then b ++ stamp_bytes (encodeTime now) else b.

(** The state once [localSet key b] has run, for a cache with or without a
    local tier. *)
Definition afterLocalSet (key : string) (b : bytes) (s : state) : state :=
  match LocalCache (opt (cd s)) with
  | Some lc =>
      withLocalCache
        (fastcache_Set lc key (stored (LocalCacheTTL (opt (cd s))) (clock s) b)) s
  | None => s
  end.

(** The state once the caller's function has run and left [u]. *)
Definition afterFunc (u : U) (s : state) : state :=
  mkState (cd s) (clock s) u (calls s ++ [CallFunc]).

(** A local write of [b] under [key], then a local read of [key] when the
    clock reads [t]. *)
Definition writeThenRead (key : string) (b : bytes) (t : Time) : Go (bytes * bool) :=
  localSet key b ;;; sleepUntil t ;;; localGet key.

End CacheModel.


(** ** Implementations of the collaborators

    Small implementations of the interfaces above, on which the general
    theorems are instantiated. *)

(** A remote store held in memory.  Each command can be made to fail with
    a transport error (a store that is unreachable, read-only, or that
    refuses a command). *)
Record memRedis : Type := mkMemRedis {
  kv : gmap string (list byte * Z);
  getFault : option string;
  setFault : option string;
  delFault : option string
}.

Definition memRedis_Set (k : string) (b : bytes) (e : Duration) (r : memRedis)
  : memRedis * option error :=
  match setFault r with
  | Some msg => (r, Some (errorString msg))
  | None => (mkMemRedis (<[k := (b, e)]> (kv r)) (getFault r) (setFault r) (delFault r), None)
  end.

Definition memRedis_Get (k : string) (r : memRedis)
  : memRedis * (bytes * option error) :=
  match getFault r with
  | Some msg => (r, ([], Some (errorString msg)))
  | None =>
      match kv r !! k with
      | Some (b, _) => (r, (b, None))
      | None => (r, ([], Some redis_Nil))
      end
  end.

Definition memRedis_Del (k : string) (r : memRedis)
  : memRedis * (Z * option error) :=
  match delFault r with
  | Some msg => (r, (0, Some (errorString msg)))
  | None =>
      match kv r !! k with
      | Some _ => (mkMemRedis (delete k (kv r)) (getFault r) (setFault r) (delFault r), (1, None))
      | None => (r, (0, None))
      end
  end.

#[global] Instance memRedis_rediser : rediser memRedis := {|
  redis_Set := memRedis_Set;
  redis_Get := memRedis_Get;
  redis_Del := memRedis_Del
|}.

(** A serializer of byte strings that prefixes the payload with a tag byte;
    [nil] encodes to no bytes, and bytes that do not start with the tag do
    not decode. *)
Definition tagSerializer : serializer (list byte) := {|
  marshal v :=
    match v with
    | Some p => (x01 :: p, None)
    | None => ([], None)
    end;
  unmarshal b tgt :=
    match b with
    | x01 :: p => (p, None)
    | _ => (tgt, Some (errorString "decode: bad tag"))
    end
|}.


Definition byte_of_Z (z : Z) : byte :=
  default x00 (Byte.of_N (Z.to_N (z mod 256))).

Definition Z_of_byte (b : byte) : Z := Z.of_N (Byte.to_N b).

(** Modelled from the spec: [encodeTime] and [decodeTime] are not in
    [cache.go]; the specification allows seconds since the epoch truncated
    to 32 bits, which is what this codec stores (least significant byte
    first). *)
Definition secondsCodec : timeCodec := {|
  encodeTime t :=
    let secs := (t / Second) mod 2 ^ 32 in
    (byte_of_Z secs, byte_of_Z (secs / 2 ^ 8),
     byte_of_Z (secs / 2 ^ 16), byte_of_Z (secs / 2 ^ 24));
  decodeTime q :=
    let '(a, b, c, d) := q in
    (Z_of_byte a + 2 ^ 8 * Z_of_byte b + 2 ^ 16 * Z_of_byte c
     + 2 ^ 24 * Z_of_byte d) * Second
|}.

(** A function for [Item.Func] that counts its invocations in the caller's
    state and returns the payload [p]. *)
Definition counting (p : list byte) (n : nat)
  : nat * (option (list byte) * option error) :=
  (S n, (Some p, None)).

(** A function for [Item.Func] that fails. *)
Definition failing (msg : string) (n : nat)
  : nat * (option (list byte) * option error) :=
  (S n, (None, Some (errorString msg))).

(** ** Concrete caches

    Options for caches over [memRedis], and the state of a cache freshly
    built from them by [New], the clock reading [t]. *)
Definition emptyRedis : memRedis := mkMemRedis ∅ None None None.

Definition redisHolding (k : string) (b : bytes) : memRedis :=
  mkMemRedis {[ k := (b, 0) ]} None None None.

Definition localOnly (w : Duration) (lc : fastcache) : @Options memRedis :=
  mkOptions None (Some lc) w false.

Definition remoteOnly (r : memRedis) : @Options memRedis :=
  mkOptions (Some r) None 0 false.

Definition noHandles : @Options memRedis := mkOptions None None 0 false.

Definition startAt (o : @Options memRedis) (t : Time) : @state nat memRedis :=
  mkState (New o) t 0%nat [].

Definition unreachableRedis : memRedis := mkMemRedis ∅ (Some "i/o timeout") None None.

Definition deleteRefusingRedis : memRedis := mkMemRedis ∅ None None (Some "NOPERM").

(** ** Concrete inputs

    A key, a start instant on a whole second, a payload, bytes that the
    tag serializer does not decode, and items over them. *)
Definition T0 : Time := 5 * Second.

Definition payload : list byte := [x2a].

Definition corrupt : list byte := [x02; x03].

Definition fresh : list byte := [x07].

Definition putItem (ttl : Duration) : @Item (list byte) nat :=
  mkItem "k" (Some payload) ttl None.

Definition onceItem (target : option (list byte))
    (f : nat -> nat * (option (list byte) * option error)) : @Item (list byte) nat :=
  mkItem "k" target Hour (Some f).

(** * The rest of the first revision: statistics *)

Section CacheStats.

Context {U R : Type}.

(** [Stats] *)
Record Stats : Type := mkStats {
  Hits : Z;
  Misses : Z
}.

(** [cd.Stats()]: [None] is the [nil] pointer. *)
Definition Cache_Stats : M (@state U R) (option Stats) := fun s =>
  if negb (StatsEnabled (opt (cd s))) then Ok None s
  else Ok (Some (mkStats (hits (cd s)) (misses (cd s)))) s.

(** The state once a remote hit, or a remote miss, has been counted. *)
Definition hitCounted (s : @state U R) : @state U R :=
  mkState (mkCache (opt (cd s)) (AddUint64 (hits (cd s))) (misses (cd s)))
          (clock s) (env s) (calls s).

Definition missCounted (s : @state U R) : @state U R :=
  mkState (mkCache (opt (cd s)) (hits (cd s)) (AddUint64 (misses (cd s))))
          (clock s) (env s) (calls s).

(** The state once [Delete key] has removed the key from the local cache,
    for a cache with or without a local tier. *)
Definition afterLocalDel (key : string) (s : @state U R) : @state U R :=
  match LocalCache (opt (cd s)) with
  | Some lc => withLocalCache (fastcache_Del lc key) s
  | None => s
  end.

(** The state once a remote read under [StatsEnabled] has been counted as
    a miss, or left uncounted. *)
Definition afterRemoteMiss (key : string) (r : R) (s : @state U R) : @state U R :=
  if StatsEnabled (opt (cd s))
  then missCounted (withCall (CallRedisGet key) (withRedis r s))
  else withCall (CallRedisGet key) (withRedis r s).

Definition afterRemoteHit (key : string) (r : R) (s : @state U R) : @state U R :=
  if StatsEnabled (opt (cd s))
  then hitCounted (withCall (CallRedisGet key) (withRedis r s))
  else withCall (CallRedisGet key) (withRedis r s).

(** The state at another reading of the clock. *)
Definition atTime (t : Time) (s : @state U R) : @state U R :=
  mkState (cd s) t (env s) (calls s).

End CacheStats.

(** * The second revision in [cache.go]: [Codec]

    The second revision keeps the local cache without timestamps, counts
    local hits and misses as well, and has no switch for the statistics.
    [msgpack.Marshal] and [msgpack.Unmarshal] (an imported package) are the
    [serializer]. *)

(** [fastcache.Cache.Has] *)
Definition fastcache_Has (lc : fastcache) (k : string) : bool :=
  bool_decide (is_Some (lc !! k)).

Module Codec.

Section CodecModel.

Context {V U R : Type} {redis : rediser R} {ser : serializer V}.

(** [Object] is the value to cache for [Set] and the decode target for
    [Get] and [Once], as [Value] is in the first revision. *)
Record Item : Type := mkItem {
  Key : string;
  Object : option V;
  Func : option (U -> U * (option V * option error));
  Expiration : Duration
}.

Definition exp (item : Item) : Duration :=
  if Expiration item <? 0 then 0
  else if Expiration item <? Second then Hour
  else Expiration item.

Record Codec : Type := mkCodec {
  Redis : option R;
  localCache : option fastcache;
  hits : Z;
  misses : Z;
  localHits : Z;
  localMisses : Z
}.

(** The state a call runs in: the codec, the state of the caller's
    function, and the ghost trace. *)
Record state : Type := mkState {
  cd : Codec;
  env : U;
  calls : list event
}.

Abbreviation Go := (M state) (only parsing).

Definition getCodec : Go Codec := fun s => Ok (cd s) s.

Definition withLocalCache (lc : fastcache) (s : state) : state :=
  let c := cd s in
  mkState (mkCodec (Redis c) (Some lc) (hits c) (misses c) (localHits c) (localMisses c))
          (env s) (calls s).

Definition withRedis (r : R) (s : state) : state :=
  let c := cd s in
  mkState (mkCodec (Some r) (localCache c) (hits c) (misses c) (localHits c) (localMisses c))
          (env s) (calls s).

Definition withCall (e : event) (s : state) : state :=
  mkState (cd s) (env s) (calls s ++ [e]).

Definition putLocalCache (lc : fastcache) : Go unit := fun s => Ok tt (withLocalCache lc s).

Definition putRedis (r : R) : Go unit := fun s => Ok tt (withRedis r s).

Definition log (e : event) : Go unit := fun s => Ok tt (withCall e s).

Definition addHit : Go unit := fun s =>
  let c := cd s in
  Ok tt (mkState (mkCodec (Redis c) (localCache c) (AddUint64 (hits c)) (misses c)
                          (localHits c) (localMisses c))
                 (env s) (calls s)).

Definition addMiss : Go unit := fun s =>
  let c := cd s in
  Ok tt (mkState (mkCodec (Redis c) (localCache c) (hits c) (AddUint64 (misses c))
                          (localHits c) (localMisses c))
                 (env s) (calls s)).

Definition addLocalHit : Go unit := fun s =>
  let c := cd s in
  Ok tt (mkState (mkCodec (Redis c) (localCache c) (hits c) (misses c)
                          (AddUint64 (localHits c)) (localMisses c))
                 (env s) (calls s)).

Definition addLocalMiss : Go unit := fun s =>
  let c := cd s in
  Ok tt (mkState (mkCodec (Redis c) (localCache c) (hits c) (misses c)
                          (localHits c) (AddUint64 (localMisses c)))
                 (env s) (calls s)).

Definition callFunc (f : U -> U * (option V * option error))
  : Go (option V * option error) := fun s =>
  let '(u, r) := f (env s) in
  Ok r (mkState (cd s) u (calls s ++ [CallFunc])).

(** [cd.UseLocalCache(maxLen, expiration)]: both arguments are unused; the
    codec receives a new, empty cache. *)
Definition UseLocalCache (maxLen : Z) (expiration : Duration) : Go unit :=
  putLocalCache ∅.

(** [item.object()] *)
Definition object (item : Item) : Go (option V * option error) :=
  match Object item with
  | Some v => ret (Some v, None)
  | None =>
      match Func item with
      | Some f => callFunc f
      | None => ret (None, None)
      end
  end.

(** [cd.set(ctx, key, obj, exp)] *)
Definition set (key : string) (obj : option V) (e : Duration)
  : Go (bytes * option error) :=
  let '(b, err) := marshal obj in
  match err with
  | Some err => ret ([], Some err)
  | None =>
      let* c := getCodec in
      (match localCache c with
       | Some lc => putLocalCache (fastcache_Set lc key b)
       | None => ret tt
       end) ;;;
      let* c := getCodec in
      match Redis c with
      | None =>
          match localCache c with
          | None => ret ([], Some errRedisLocalCacheNil)
          | Some _ => ret (b, None)
          end
      | Some r =>
          let '(r', err) := redis_Set key b e r in
          putRedis r' ;;;
          log (CallRedisSet key b e) ;;;
          ret (b, err)
      end
  end.

(** [cd.Set(item)] *)
Definition Set_ (item : Item) : Go (option error) :=
  let* '(obj, err) := object item in
  match err with
  | Some err => ret (Some err)
  | None =>
      let* '(_, err) := set (Key item) obj (exp item) in
      ret err
  end.

(** [cd.getBytes(key)] *)
Definition getBytes (key : string) : Go (bytes * option error) :=
  let* c := getCodec in
  let* '(b, ok) :=
    match localCache c with
    | Some lc =>
        let '(b, ok) := fastcache_HasGet lc key in
        if ok then addLocalHit ;;; ret (b, true)
        else addLocalMiss ;;; ret (b, false)
    | None => ret ([], false)
    end in
  if ok then ret (b, None)
  else
    match Redis c with
    | None =>
        match localCache c with
        | None => ret ([], Some errRedisLocalCacheNil)
        | Some _ => ret ([], Some ErrCacheMiss)
        end
    | Some r =>
        let '(r', (b, err)) := redis_Get key r in
        putRedis r' ;;;
        log (CallRedisGet key) ;;;
        match err with
        | Some err =>
            addMiss ;;;
            if is_redis_Nil err then ret ([], Some ErrCacheMiss)
            else ret ([], Some err)
        | None =>
            addHit ;;;
            let* c := getCodec in
            (match localCache c with
             | Some lc => putLocalCache (fastcache_Set lc key b)
             | None => ret tt
             end) ;;;
            ret (b, None)
        end
    end.

(** [cd.get(ctx, key, object)] *)
Definition get (key : string) (target : option V) : Go (option error * option V) :=
  let* '(b, err) := getBytes key in
  match err with
  | Some err => ret (Some err, target)
  | None =>
      match target with
      | None => ret (None, target)
      | Some tgt =>
          if Z.of_nat (length b) =? 0 then ret (None, target)
          else
            log (CallUnmarshal b) ;;;
            let '(v, err) := unmarshal b tgt in
            ret (err, Some v)
      end
  end.

(** [cd.Get(ctx, key, object)] *)
Definition Get (key : string) (target : option V) : Go (option error * option V) :=
  get key target.

(** [cd.Exists(ctx, key)] *)
Definition Exists (key : string) : Go bool :=
  let* '(err, _) := Get key None in
  ret (match err with None => true | Some _ => false end).

(** [cd.Delete(ctx, key)] *)
Definition Delete (key : string) : Go (option error) :=
  let* c := getCodec in
  (match localCache c with
   | Some lc => putLocalCache (fastcache_Del lc key)
   | None => ret tt
   end) ;;;
  match Redis c with
  | None =>
      match localCache c with
      | None => ret (Some errRedisLocalCacheNil)
      | Some _ => ret None
      end
  | Some r =>
      let '(r', (deleted, err)) := redis_Del key r in
      putRedis r' ;;;
      log (CallRedisDel key) ;;;
      match err with
      | Some err => ret (Some err)
      | None => if deleted =? 0 then ret (Some ErrCacheMiss) else ret None
      end
  end.

(** The function handed to [cd.group.Do] in [getSetItemBytesOnce]. *)
Definition onceFn (item : Item) : Go (bytes * bool * option error) :=
  let* '(b, err) := getBytes (Key item) in
  match err with
  | None => ret (b, true, None)
  | Some _ =>
      match Func item with
      | None => panic "nil pointer dereference"
      | Some f =>
          let* '(obj, err) := callFunc f in
          match err with
          | Some err => ret ([], false, Some err)
          | None =>
              let* '(b, err) := set (Key item) obj (exp item) in
              ret (b, false, err)
          end
      end
  end.

(** [cd.getSetItemBytesOnce(item)], for a call that finds no other call in
    flight for its key. *)
Definition getSetItemBytesOnce (item : Item) : Go (bytes * bool * option error) :=
  let* c := getCodec in
  let* '(b, ok) :=
    match localCache c with
    | Some lc =>
        if fastcache_Has lc (Key item) then
          let '(b, ok) := fastcache_HasGet lc (Key item) in
          if ok then addLocalHit ;;; ret (b, true)
          else addLocalMiss ;;; ret (b, false)
        else ret ([], false)
    | None => ret ([], false)
    end in
  if ok then ret (b, true, None)
  else
    let* '(v, cached, err) := onceFn item in
    match err with
    | Some err => ret ([], false, Some err)
    | None => ret (v, cached, None)
    end.

Definition withTarget (item : Item) (v : V) : Item :=
  mkItem (Key item) (Some v) (Func item) (Expiration item).

(** [cd.Once(item)] *)
Fixpoint Once (fuel : nat) (item : Item) : Go (option error * option V) :=
  match fuel with
  | O => fun _ => OutOfFuel
  | S fuel =>
      let* '(b, cached, err) := getSetItemBytesOnce item in
      match err with
      | Some err => ret (Some err, Object item)
      | None =>
          match Object item with
          | None => ret (None, Object item)
          | Some tgt =>
              if Z.of_nat (length b) =? 0 then ret (None, Object item)
              else
                log (CallUnmarshal b) ;;;
                let '(v, err) := unmarshal b tgt in
                match err with
                | None => ret (None, Some v)
                | Some err =>
                    if cached then
                      Delete (Key item) ;;;
                      Once fuel (withTarget item v)
                    else ret (Some err, Some v)
                end
          end
      end
  end.

(** [Stats] of the second revision *)
Record Stats : Type := mkStats {
  Hits : Z;
  Misses : Z;
  LocalHits : Z;
  LocalMisses : Z
}.

(** [cd.Stats()] *)
Definition Codec_Stats : Go Stats := fun s =>
  let c := cd s in
  match localCache c with
  | Some _ => Ok (mkStats (hits c) (misses c) (localHits c) (localMisses c)) s
  | None => Ok (mkStats (hits c) (misses c) 0 0) s
  end.

End CodecModel.

End Codec.

(** * The two revisions side by side *)

Section Revisions.

Context {V U R : Type}.

(** The item of the second revision with the same fields. *)
Definition toCodecItem (item : @Item V U) : @Codec.Item V U :=
  Codec.mkItem (Key item) (Value item) (Func item) (TTL item).

(** A state of the first revision, with the window 0 (local entries never
    stale) and the statistics enabled, and a state of the second revision
    that hold the same stores, remote counters, caller state and trace. *)
Definition agrees (s1 : @state U R) (s2 : @Codec.state U R) : Prop :=
  LocalCacheTTL (opt (cd s1)) = 0 /\
  StatsEnabled (opt (cd s1)) = true /\
  Redis (opt (cd s1)) = Codec.Redis (Codec.cd s2) /\
  LocalCache (opt (cd s1)) = Codec.localCache (Codec.cd s2) /\
  hits (cd s1) = Codec.hits (Codec.cd s2) /\
  misses (cd s1) = Codec.misses (Codec.cd s2) /\
  env s1 = Codec.env s2 /\
  calls s1 = Codec.calls s2.

(** Two outcomes that are the same: the same value in states that agree,
    or the same panic, or both out of fuel. *)
Definition sameOutcome {A : Type}
    (x : res (@state U R) A) (y : res (@Codec.state U R) A) : Prop :=
  match x, y with
  | Ok a1 s1, Ok a2 s2 => a1 = a2 /\ agrees s1 s2
  | Panicked m1, Panicked m2 => m1 = m2
  | OutOfFuel, OutOfFuel => True
  | _, _ => False
  end.

End Revisions.

(** ** More concrete inputs *)

(** A payload of 65531 bytes: with a one-byte key and the 4-byte header it
    makes an entry of 64KB, the smallest that the local cache skips. *)
Definition oversized : list byte := repeat x2a (Z.to_nat 65531).

(** One byte less: the largest payload kept under a one-byte key. *)
Definition largest : list byte := repeat x2a (Z.to_nat 65530).

Definition readOnlyRedis : memRedis := mkMemRedis ∅ None (Some "READONLY") None.

(** A codec of the second revision with fresh counters. *)
Definition codecStart (r : option memRedis) (lc : option (gmap string (list byte)))
  : @Codec.state nat memRedis :=
  Codec.mkState (Codec.mkCodec r lc 0 0 0 0) 0%nat [].

(** * Properties of the model *)

(** Unfolds the plumbing of the monad. *)
Ltac run :=
  unfold bind, ret, panic, getOpt, Now, putLocalCache, putRedis, log, sleepUntil; simpl.

Section CacheProofs.

Context {V U R : Type} {redis : rediser R} {ser : serializer V} {codec : timeCodec}.

Implicit Types (s : @state U R) (item : @Item V U) (key : string) (b : list byte).

Lemma stamp_of_bytes (q : stamp) : stamp_of (stamp_bytes q) = q.
Proof. by destruct q as [[[? ?] ?] ?]. Qed.

Lemma length_stamp_bytes (q : stamp) : length (stamp_bytes q) = 4%nat.
Proof. by destruct q as [[[? ?] ?] ?]. Qed.

Lemma drop_stamp b (q : stamp) :
  drop (length (b ++ stamp_bytes q) - 4) (b ++ stamp_bytes q) = stamp_bytes q.
Proof.
  rewrite length_app, length_stamp_bytes.
  replace (length b + 4 - 4)%nat with (length b) by lia.
  by rewrite drop_app_length.
Qed.

Lemma take_stamp b (q : stamp) :
  take (length (b ++ stamp_bytes q) - 4) (b ++ stamp_bytes q) = b.
Proof.
  rewrite length_app, length_stamp_bytes.
  replace (length b + 4 - 4)%nat with (length b) by lia.
  by rewrite take_app_length.
Qed.


Lemma fastcache_Set_keeps (lc : gmap string (list byte)) key b :
  fastcache_keeps key b -> fastcache_Set lc key b = <[key := b]> lc.
Proof.
  unfold fastcache_keeps, fastcache_Set, chunkSize. intros Hfit.
  destruct (Z.geb_spec (Z.of_nat (String.length key)) (2 ^ 16)); [lia|].
  destruct (Z.geb_spec (Z.of_nat (length b)) (2 ^ 16)); [lia|]. simpl.
  by destruct (Z.geb_spec (4 + Z.of_nat (String.length key) + Z.of_nat (length b))
                 (64 * 1024)); [lia|].
Qed.

Lemma fastcache_Set_drops (lc : gmap string (list byte)) key b :
  ~ fastcache_keeps key b -> fastcache_Set lc key b = lc.
Proof.
  unfold fastcache_keeps, fastcache_Set, chunkSize. intros Hbig.
  destruct (_ || _); [done|].
  by destruct (Z.geb_spec (4 + Z.of_nat (String.length key) + Z.of_nat (length b))
                 (64 * 1024)); [|lia].
Qed.

Lemma localSet_run key b s lc :
  LocalCache (opt (cd s)) = Some lc ->
  localSet key b s =
    Ok tt (withLocalCache
             (fastcache_Set lc key (stored (LocalCacheTTL (opt (cd s))) (clock s) b)) s).
Proof.
  intros Hlc. unfold localSet. run. rewrite Hlc. reflexivity.
Qed.

Lemma localGet_absent key s lc :
  LocalCache (opt (cd s)) = Some lc -> lc !! key = None ->
  localGet key s = Ok ([], false) s.
Proof.
  intros Hlc Hk. unfold localGet, fastcache_HasGet. run. rewrite Hlc, Hk. reflexivity.
Qed.

Lemma localGet_never_stale key s lc b :
  LocalCache (opt (cd s)) = Some lc -> lc !! key = Some b ->
  LocalCacheTTL (opt (cd s)) = 0 ->
  localGet key s = Ok (b, true) s.
Proof.
  intros Hlc Hk Hw. unfold localGet, fastcache_HasGet. run. rewrite Hlc, Hk, Hw. simpl.
  by rewrite orb_true_r.
Qed.

Lemma localGet_stamped key s lc b q :
  LocalCache (opt (cd s)) = Some lc -> lc !! key = Some (b ++ stamp_bytes q) ->
  LocalCacheTTL (opt (cd s)) <> 0 -> b <> [] ->
  localGet key s =
    if Since (clock s) (decodeTime q) >? LocalCacheTTL (opt (cd s))
    then Ok ([], false) s else Ok (b, true) s.
Proof.
  intros Hlc Hk Hw Hb. unfold localGet, fastcache_HasGet. run. rewrite Hlc, Hk. simpl.
  assert (Hlen : length (b ++ stamp_bytes q) = (length b + 4)%nat)
    by (by rewrite length_app, length_stamp_bytes).
  assert (0 < length b)%nat by (destruct b; [done | simpl; lia]).
  destruct (Z.eqb_spec (Z.of_nat (length (b ++ stamp_bytes q))) 0) as [E|_]; [lia|].
  destruct (Z.eqb_spec (LocalCacheTTL (opt (cd s))) 0) as [E|_]; [done|]. simpl.
  destruct (Z.leb_spec (Z.of_nat (length (b ++ stamp_bytes q))) 4) as [E|_]; [lia|].
  rewrite drop_stamp, take_stamp, stamp_of_bytes.
  by destruct (_ >? _).
Qed.

Lemma localGet_short key s lc b :
  LocalCache (opt (cd s)) = Some lc -> lc !! key = Some b ->
  LocalCacheTTL (opt (cd s)) <> 0 -> (0 < length b <= 4)%nat ->
  localGet key s = Panicked "not reached".
Proof.
  intros Hlc Hk Hw Hb. unfold localGet, fastcache_HasGet. run. rewrite Hlc, Hk. simpl.
  destruct (Z.eqb_spec (Z.of_nat (length b)) 0) as [E|_]; [lia|].
  destruct (Z.eqb_spec (LocalCacheTTL (opt (cd s))) 0) as [E|_]; [done|]. simpl.
  destruct (Z.leb_spec (Z.of_nat (length b)) 4) as [_|E]; [done|lia].
Qed.



Lemma init_minus_one (o : @Options R) :
  LocalCacheTTL o = -1 -> LocalCacheTTL (init o) = 0.
Proof. intros E. unfold init. by rewrite E. Qed.

Lemma init_zero (o : @Options R) :
  LocalCacheTTL o = 0 -> LocalCacheTTL (init o) = Minute.
Proof. intros E. unfold init. by rewrite E. Qed.

Lemma init_other (o : @Options R) :
  LocalCacheTTL o <> -1 -> LocalCacheTTL o <> 0 -> init o = o.
Proof.
  intros E1 E2. unfold init.
  destruct (Z.eqb_spec (LocalCacheTTL o) (-1)); [done|].
  by destruct (Z.eqb_spec (LocalCacheTTL o) 0).
Qed.

Lemma init_LocalCache (o : @Options R) : LocalCache (init o) = LocalCache o.
Proof. unfold init. by repeat case_match. Qed.

Lemma writeThenRead_never_stale key b t s lc :
  LocalCache (opt (cd s)) = Some lc -> LocalCacheTTL (opt (cd s)) = 0 ->
  fastcache_keeps key b ->
  exists s',
    writeThenRead key b t s = Ok (b, true) s' /\
    LocalCache (opt (cd s')) = Some (<[key := b]> lc).
Proof.
  intros Hlc Hw Hfit. unfold writeThenRead, bind.
  rewrite (localSet_run _ _ _ lc Hlc). unfold stored. rewrite Hw. simpl.
  rewrite (fastcache_Set_keeps _ _ _ Hfit).
  eexists. split.
  - eapply localGet_never_stale; simpl; [reflexivity | apply lookup_insert_eq | done].
  - reflexivity.
Qed.

Lemma writeThenRead_stamped key b t s lc :
  LocalCache (opt (cd s)) = Some lc -> 0 < LocalCacheTTL (opt (cd s)) -> b <> [] ->
  fastcache_keeps key (b ++ stamp_bytes (encodeTime (clock s))) ->
  exists s',
    LocalCache (opt (cd s')) =
      Some (<[key := b ++ stamp_bytes (encodeTime (clock s))]> lc) /\
    writeThenRead key b t s =
      if Since t (decodeTime (encodeTime (clock s))) >? LocalCacheTTL (opt (cd s))
      then Ok ([], false) s' else Ok (b, true) s'.
Proof.
  intros Hlc Hw Hb Hfit. unfold writeThenRead, bind.
  rewrite (localSet_run _ _ _ lc Hlc). unfold stored.
  destruct (Z.ltb_spec 0 (LocalCacheTTL (opt (cd s)))) as [_|]; [|lia]. simpl.
  rewrite (fastcache_Set_keeps _ _ _ Hfit).
  match goal with |- context [localGet key ?st] => set (s' := st) end.
  exists s'. split; [reflexivity|].
  rewrite (localGet_stamped key s' (<[key := b ++ stamp_bytes (encodeTime (clock s))]> lc)
             b (encodeTime (clock s)));
    [reflexivity | reflexivity | apply lookup_insert_eq | simpl; lia | done].
Qed.

Lemma writeThenRead_empty key t s lc :
  LocalCache (opt (cd s)) = Some lc -> 0 < LocalCacheTTL (opt (cd s)) ->
  fastcache_keeps key (stamp_bytes (encodeTime (clock s))) ->
  writeThenRead key [] t s = Panicked "not reached".
Proof.
  intros Hlc Hw Hfit. unfold writeThenRead, bind.
  rewrite (localSet_run _ _ _ lc Hlc). unfold stored.
  destruct (Z.ltb_spec 0 (LocalCacheTTL (opt (cd s)))) as [_|]; [|lia]. simpl.
  rewrite (fastcache_Set_keeps _ _ _ Hfit).
  eapply localGet_short; simpl; [reflexivity | apply lookup_insert_eq | lia |].
  rewrite length_stamp_bytes. lia.
Qed.

Lemma set_run key (v : option V) e s b :
  marshal v = (b, None) ->
  set key v e s =
    match Redis (opt (cd s)), LocalCache (opt (cd s)) with
    | None, None => Ok ([], Some errRedisLocalCacheNil) s
    | None, Some _ => Ok (b, None) (afterLocalSet key b s)
    | Some r, _ =>
        Ok (b, snd (redis_Set key b e r))
           (withCall (CallRedisSet key b e)
              (withRedis (fst (redis_Set key b e r)) (afterLocalSet key b s)))
    end.
Proof.
  intros Hm. unfold set, afterLocalSet. rewrite Hm. unfold bind at 1 2. unfold getOpt at 1.
  destruct (LocalCache (opt (cd s))) as [lc|] eqn:Hl.
  - rewrite (localSet_run key b s lc Hl). run.
    destruct (Redis (opt (cd s))) as [r|]; [|done].
    by destruct (redis_Set key b e r).
  - run. destruct (Redis (opt (cd s))) as [r|]; [|by rewrite Hl].
    by destruct (redis_Set key b e r).
Qed.

Lemma exp_cases item :
  (TTL item < 0 -> exp item = 0) /\
  (0 <= TTL item < Second -> exp item = Hour) /\
  (Second <= TTL item -> exp item = TTL item).
Proof.
  unfold exp, Second. repeat split; intros Ht.
  - destruct (Z.ltb_spec (TTL item) 0); [done | lia].
  - destruct (Z.ltb_spec (TTL item) 0); [lia |].
    destruct (Z.ltb_spec (TTL item) 1000000000); [done | lia].
  - destruct (Z.ltb_spec (TTL item) 0); [lia |].
    destruct (Z.ltb_spec (TTL item) 1000000000); [lia | done].
Qed.

(** C4.  On a remote write, [Set] hands the remote store the expiration
    [d] resolved from the item's TTL: a negative TTL gives 0 (no
    expiration), a TTL below one second (zero included) gives one hour, and
    a TTL of one second or more is passed as it is. *)
Theorem remote_write_expiration item s r v b :
  Redis (opt (cd s)) = Some r -> Value item = Some v -> marshal (Some v) = (b, None) ->
  exists d s',
    Set_ item s = Ok (snd (redis_Set (Key item) b d r)) s' /\
    Redis (opt (cd s')) = Some (fst (redis_Set (Key item) b d r)) /\
    calls s' = calls s ++ [CallRedisSet (Key item) b d] /\
    (TTL item < 0 -> d = 0) /\
    (0 <= TTL item < Second -> d = Hour) /\
    (Second <= TTL item -> d = TTL item).
Proof.
  intros Hr Hv Hm. exists (exp item).
  unfold Set_, value. rewrite Hv. unfold bind at 1. unfold ret at 1. unfold bind at 1.
  rewrite (set_run _ _ _ _ b Hm), Hr.
  eexists. split; [reflexivity|]. split; [reflexivity|]. split; [|apply exp_cases].
  simpl. unfold afterLocalSet. by destruct (LocalCache (opt (cd s))).
Qed.

Lemma writeThenRead_dropped key b t s lc :
  LocalCache (opt (cd s)) = Some lc -> lc !! key = None ->
  ~ fastcache_keeps key (stored (LocalCacheTTL (opt (cd s))) (clock s) b) ->
  exists s',
    writeThenRead key b t s = Ok ([], false) s' /\
    LocalCache (opt (cd s')) = Some lc.
Proof.
  intros Hlc Hk Hbig. unfold writeThenRead, bind.
  rewrite (localSet_run _ _ _ lc Hlc), (fastcache_Set_drops _ _ _ Hbig).
  eexists. split.
  - eapply localGet_absent; simpl; [reflexivity | exact Hk].
  - reflexivity.
Qed.

(** C3 (amended).  For a cache built by [New] with a local cache: a
    configured window of exactly -1 becomes 0, no timestamp is appended and
    an entry that the local cache keeps (one that fits a chunk) is returned
    whatever the time of the read; a window of 0 becomes one minute; a
    positive window is kept as it is.  Under the resulting window [w], a
    non-empty payload written at [t0] that the local cache keeps with its
    timestamp is stored followed by that timestamp; it reads as a miss when
    [time.Since] of the timestamp as decoded, [decodeTime (encodeTime t0)],
    exceeds [w], and is returned as written otherwise.  An entry that the
    local cache does not keep leaves it as it was: with nothing under the
    key before, the read is a miss under every window. *)
Theorem local_staleness_regimes (o : @Options R) lc key b t0 t1 (u : U) tr :
  LocalCache o = Some lc ->
  let s0 := mkState (New o) t0 u tr in
  let w := LocalCacheTTL (opt (New o)) in
  (LocalCacheTTL o = -1 ->
     w = 0 /\
     (fastcache_keeps key b ->
      exists s', writeThenRead key b t1 s0 = Ok (b, true) s' /\
                 LocalCache (opt (cd s')) = Some (<[key := b]> lc))) /\
  (LocalCacheTTL o = 0 -> w = Minute) /\
  (0 < LocalCacheTTL o -> w = LocalCacheTTL o) /\
  (0 <= LocalCacheTTL o -> b <> [] ->
   fastcache_keeps key (b ++ stamp_bytes (encodeTime t0)) ->
     exists s',
       LocalCache (opt (cd s')) = Some (<[key := b ++ stamp_bytes (encodeTime t0)]> lc) /\
       (Since t1 (decodeTime (encodeTime t0)) > w ->
        writeThenRead key b t1 s0 = Ok ([], false) s') /\
       (Since t1 (decodeTime (encodeTime t0)) <= w ->
        writeThenRead key b t1 s0 = Ok (b, true) s')) /\
  (lc !! key = None -> ~ fastcache_keeps key (stored w t0 b) ->
     exists s',
       writeThenRead key b t1 s0 = Ok ([], false) s' /\
       LocalCache (opt (cd s')) = Some lc).
Proof.
  intros Hlc s0 w. subst w. simpl.
  assert (Hlc0 : LocalCache (opt (cd s0)) = Some lc) by (simpl; by rewrite init_LocalCache).
  split; [|split; [|split; [|split]]];
    [| | | |intros Hk Hbig; exact (writeThenRead_dropped key b t1 s0 lc Hlc0 Hk Hbig)].
  - intros E. split; [by apply init_minus_one|]. intros Hfit.
    apply writeThenRead_never_stale; [done | | done]. simpl. by apply init_minus_one.
  - apply init_zero.
  - intros Hw. rewrite init_other; [done | lia | lia].
  - intros Hw Hb Hfit.
    assert (Hpos : 0 < LocalCacheTTL (opt (cd s0))).
    { simpl. destruct (Z.eq_dec (LocalCacheTTL o) 0) as [E|E].
      - rewrite (init_zero _ E). unfold Minute, Second. lia.
      - rewrite init_other; lia. }
    destruct (writeThenRead_stamped key b t1 s0 lc Hlc0 Hpos Hb Hfit) as (s' & Hs' & Hrun).
    simpl in Hs', Hrun.
    exists s'. split; [done|]. split; intros Hage.
    + rewrite Hrun.
      destruct (Z.gtb_spec (Since t1 (decodeTime (encodeTime t0)))
                  (LocalCacheTTL (init o))); [done | lia].
    + rewrite Hrun.
      destruct (Z.gtb_spec (Since t1 (decodeTime (encodeTime t0)))
                  (LocalCacheTTL (init o))); [lia | done].
Qed.

Lemma localGet_state key s r s' : localGet key s = Ok r s' -> s' = s.
Proof.
  unfold localGet. run. destruct (LocalCache (opt (cd s))); [|done].
  destruct (fastcache_HasGet g key) as [b ok].
  repeat (case_match; simpl); congruence.
Qed.

Lemma set_total key (v : option V) e s :
  exists r s', set key v e s = Ok r s'.
Proof.
  unfold set. destruct (marshal v) as [b [err|]]; [by eexists _, _|].
  unfold localSet. run.
  destruct (LocalCache (opt (cd s))) eqn:Hlc; simpl; [rewrite Hlc; simpl|rewrite Hlc].
  - destruct (Redis (opt (cd s))); [destruct (redis_Set _ _ _ _)|]; by eexists _, _.
  - destruct (Redis (opt (cd s))); [destruct (redis_Set _ _ _ _)|]; by eexists _, _.
Qed.

(** C6.  With a remote store configured, [Delete] removes the key from
    the local cache whatever the remote delete command answers, a count
    or an error; when the command answers the count [n], [Delete] reports
    [ErrCacheMiss] when [n] is zero and success otherwise (and it returns
    the error when the command fails); so a key held by the local tier
    only is removed there and reported as a miss. *)
Theorem Delete_reports_remote_count key s r r' n derr :
  Redis (opt (cd s)) = Some r -> redis_Del key r = (r', (n, derr)) ->
  exists s',
    Delete key s =
      Ok (match derr with
          | Some e => Some e
          | None => if n =? 0 then Some ErrCacheMiss else None
          end) s' /\
    (derr = None -> n = 0 -> Delete key s = Ok (Some ErrCacheMiss) s') /\
    (derr = None -> n <> 0 -> Delete key s = Ok None s') /\
    LocalCache (opt (cd s')) = (fun lc => fastcache_Del lc key) <$> LocalCache (opt (cd s)) /\
    (forall lc', LocalCache (opt (cd s')) = Some lc' -> lc' !! key = None) /\
    Redis (opt (cd s')) = Some r'.
Proof.
  intros Hr Hd. unfold Delete. run. rewrite Hr.
  destruct (LocalCache (opt (cd s))) as [lc|] eqn:Hlc; simpl; rewrite Hd; simpl.
  - eexists. split; [|split; [|split; [|split; [|split]]]].
    + destruct derr as [e|]; [reflexivity|]. destruct (n =? 0); reflexivity.
    + intros -> ->. reflexivity.
    + intros -> Hn. destruct (Z.eqb_spec n 0); [done | reflexivity].
    + destruct derr as [e|]; [reflexivity|]. destruct (n =? 0); reflexivity.
    + intros lc'. destruct derr as [e|]; [|destruct (n =? 0)]; simpl;
        intros [= <-]; apply lookup_delete_eq.
    + destruct derr as [e|]; [reflexivity|]. destruct (n =? 0); reflexivity.
  - eexists. split; [|split; [|split; [|split; [|split]]]].
    + destruct derr as [e|]; [reflexivity|]. destruct (n =? 0); reflexivity.
    + intros -> ->. reflexivity.
    + intros -> Hn. destruct (Z.eqb_spec n 0); [done | reflexivity].
    + destruct derr as [e|]; [|destruct (n =? 0)]; simpl; by rewrite Hlc.
    + intros lc'. destruct derr as [e|]; [|destruct (n =? 0)]; simpl; by rewrite Hlc.
    + destruct derr as [e|]; [reflexivity|]. destruct (n =? 0); reflexivity.
Qed.

Lemma getBytes_no_handles key s :
  Redis (opt (cd s)) = None -> LocalCache (opt (cd s)) = None ->
  getBytes key s = Ok ([], Some errRedisLocalCacheNil) s.
Proof. intros Hr Hl. unfold getBytes. run. by rewrite Hl, Hr. Qed.

Lemma set_no_handles key (v : option V) e s :
  Redis (opt (cd s)) = None -> LocalCache (opt (cd s)) = None ->
  set key v e s = Ok ([], Some (firstError None (snd (marshal v)))) s.
Proof.
  intros Hr Hl. unfold set. destruct (marshal v) as [b [err|]]; [done|].
  run. rewrite Hl. simpl. by rewrite Hr, Hl.
Qed.

Lemma Once_S fuel item s :
  Once (S fuel) item s =
    match getSetItemBytesOnce item s with
    | Ok (b, cached, Some err) s1 => Ok (Some err, Value item) s1
    | Ok (b, cached, None) s1 =>
        match Value item with
        | None => Ok (None, Value item) s1
        | Some tgt =>
            if Z.of_nat (length b) =? 0 then Ok (None, Value item) s1
            else
              let s2 := withCall (CallUnmarshal b) s1 in
              match unmarshal b tgt with
              | (v, None) => Ok (None, Some v) s2
              | (v, Some err) =>
                  if cached then
                    match Delete (Key item) s2 with
                    | Ok _ s3 => Once fuel (withTarget item v) s3
                    | Panicked msg => Panicked msg
                    | OutOfFuel => OutOfFuel
                    end
                  else Ok (Some err, Some v) s2
              end
        end
    | Panicked msg => Panicked msg
    | OutOfFuel => OutOfFuel
    end.
Proof.
  simpl. unfold bind at 1.
  destruct (getSetItemBytesOnce item s) as [[[b cached] [err|]] s1| |]; try reflexivity.
  destruct (Value item) as [tgt|]; [|reflexivity].
  destruct (Z.of_nat (length b) =? 0); [reflexivity|].
  run. destruct (unmarshal b tgt) as [v [err|]]; [|reflexivity].
  destruct cached; reflexivity.
Qed.

Lemma getSetItemBytesOnce_no_local item s :
  LocalCache (opt (cd s)) = None ->
  getSetItemBytesOnce item s =
    match onceFn item s with
    | Ok (v, cached, Some err) s1 => Ok ([], false, Some err) s1
    | r => r
    end.
Proof.
  intros Hl. unfold getSetItemBytesOnce. run. rewrite Hl. simpl.
  destruct (onceFn item s) as [[[b cached] [err|]] s1| |]; reflexivity.
Qed.

(** C8 (amended).  With neither a remote store nor a local cache, [Get]
    and [Delete] fail with the configuration error and [Exists] answers
    false; [Set] and [Once] (given a function) fail too, with the error of
    the caller's function if it fails, else with the error of the
    serializer if it fails, else with the configuration error. *)
Theorem no_handles_every_operation_fails item key tgt fuel s :
  Redis (opt (cd s)) = None -> LocalCache (opt (cd s)) = None ->
  Get key tgt s = Ok (Some errRedisLocalCacheNil, tgt) s /\
  Exists key s = Ok false s /\
  Delete key s = Ok (Some errRedisLocalCacheNil) s /\
  (forall v verr s',
     value item s = Ok (v, verr) s' ->
     Set_ item s = Ok (Some (firstError verr (snd (marshal v)))) s') /\
  (forall f u v ferr,
     Func item = Some f -> f (env s) = (u, (v, ferr)) ->
     Once (S fuel) item s =
       Ok (Some (firstError ferr (snd (marshal v))), Value item) (afterFunc u s)).
Proof.
  intros Hr Hl. split; [|split; [|split; [|split]]].
  - unfold Get, get, bind. by rewrite getBytes_no_handles.
  - unfold Exists, Get, get, bind. by rewrite getBytes_no_handles.
  - unfold Delete. run. by rewrite Hl, Hr.
  - intros v verr s' Hval. unfold Set_, bind. rewrite Hval.
    assert (Hs' : Redis (opt (cd s')) = None /\ LocalCache (opt (cd s')) = None).
    { revert Hval. unfold value, callFunc. run.
      destruct (Value item); [by intros [= ? ? ?]; subst|].
      destruct (Func item) as [f|]; [destruct (f (env s))|]; by intros [= ? ?]; subst. }
    destruct Hs' as [Hr' Hl']. destruct verr as [e|]; [reflexivity|].
    rewrite set_no_handles by done. reflexivity.
  - intros f u v ferr Hf Hfu. rewrite Once_S.
    rewrite (getSetItemBytesOnce_no_local item s Hl).
    unfold onceFn, bind. rewrite getBytes_no_handles by done.
    rewrite Hf. unfold callFunc. rewrite Hfu. fold (afterFunc u s).
    destruct ferr as [e|]; [reflexivity|].
    rewrite set_no_handles by done. reflexivity.
Qed.

(** C9 (amended).  In [Once], the function run for the key invokes the
    caller's function exactly when its read fails, whatever the error of
    the read (a miss or any other failure), and the read's error is
    dropped: the result is the error of the caller's function, or else the
    outcome of writing the value it returned.  When the read succeeds the
    caller's function is not invoked and the bytes are marked as cached. *)
Theorem onceFn_calls_Func_on_every_read_failure item s b rerr s1 :
  getBytes (Key item) s = Ok (b, rerr) s1 ->
  (rerr = None -> onceFn item s = Ok (b, true, None) s1) /\
  (forall e f u v ferr,
     rerr = Some e -> Func item = Some f -> f (env s1) = (u, (v, ferr)) ->
     match ferr with
     | Some fe => onceFn item s = Ok ([], false, Some fe) (afterFunc u s1)
     | None =>
         exists b' serr s3,
           set (Key item) v (exp item) (afterFunc u s1) = Ok (b', serr) s3 /\
           onceFn item s =
             Ok (match serr with
                 | Some se => ([], false, Some se)
                 | None => (b', false, None)
                 end) s3
     end).
Proof.
  intros Hread. split.
  - intros ->. unfold onceFn, bind. by rewrite Hread.
  - intros e f u v ferr -> Hf Hfu. unfold onceFn, bind. rewrite Hread, Hf.
    unfold callFunc. rewrite Hfu. destruct ferr as [fe|]; [reflexivity|].
    fold (afterFunc u s1).
    destruct (set_total (Key item) v (exp item) (afterFunc u s1)) as ([b' serr] & s3 & Hset).
    exists b', serr, s3. split; [done|]. rewrite Hset. by destruct serr.
Qed.

(** C10.  When the lookup succeeds and the target is [nil] or the payload
    is empty, [Get] and [Once] return success in the very state the lookup
    left: the decoder is not called and, for [Once], nothing is deleted and
    nothing is retried, whatever the recursion budget.  [Exists] answers
    whether the lookup succeeded, in the state the lookup left, so it never
    meets a decode error. *)
Theorem nil_target_or_empty_payload_skips_decoder :
  (forall key tgt s b s1,
     getBytes key s = Ok (b, None) s1 -> tgt = None \/ b = [] ->
     Get key tgt s = Ok (None, tgt) s1) /\
  (forall key s b err s1,
     getBytes key s = Ok (b, err) s1 ->
     Exists key s = Ok (match err with None => true | Some _ => false end) s1) /\
  (forall fuel item s b cached s1,
     getSetItemBytesOnce item s = Ok (b, cached, None) s1 ->
     Value item = None \/ b = [] ->
     Once (S fuel) item s = Ok (None, Value item) s1).
Proof.
  split; [|split].
  - intros key tgt s b s1 Hread Hskip. unfold Get, get, bind. rewrite Hread.
    destruct tgt as [tgt|]; [|done].
    destruct Hskip as [? | ->]; done.
  - intros key s b err s1 Hread. unfold Exists, Get, get, bind. rewrite Hread.
    by destruct err.
  - intros fuel item s b cached s1 Hlook Hskip. rewrite Once_S, Hlook.
    destruct (Value item) as [tgt|]; [|done].
    destruct Hskip as [? | ->]; done.
Qed.

Lemma Delete_total key s :
  exists derr s',
    Delete key s = Ok derr s' /\
    LocalCache (opt (cd s')) = (fun lc => fastcache_Del lc key) <$> LocalCache (opt (cd s)) /\
    (forall r, Redis (opt (cd s)) = Some r ->
       Redis (opt (cd s')) = Some (fst (redis_Del key r)) /\
       calls s' = calls s ++ [CallRedisDel key]) /\
    (Redis (opt (cd s)) = None -> Redis (opt (cd s')) = None /\ calls s' = calls s).
Proof.
  unfold Delete. run.
  destruct (Redis (opt (cd s))) as [r|] eqn:Hr, (LocalCache (opt (cd s))) as [lc|] eqn:Hl; simpl.
  - destruct (redis_Del key r) as [r' [n [err|]]] eqn:Hd; simpl.
    + eexists _, _. split; [reflexivity|]. simpl. split; [done|]. split; [|done].
      intros ? [= <-]. by rewrite Hd.
    + destruct (n =? 0); eexists _, _; (split; [reflexivity|]); simpl;
        (split; [done|]); (split; [|done]); intros ? [= <-]; by rewrite Hd.
  - destruct (redis_Del key r) as [r' [n [err|]]] eqn:Hd; simpl.
    + eexists _, _. split; [reflexivity|]. simpl. rewrite Hl. split; [done|]. split; [|done].
      intros ? [= <-]. by rewrite Hd.
    + destruct (n =? 0); eexists _, _; (split; [reflexivity|]); simpl; rewrite Hl;
        (split; [done|]); (split; [|done]); intros ? [= <-]; by rewrite Hd.
  - eexists _, _. split; [reflexivity|]. simpl. rewrite Hr. done.
  - eexists _, _. split; [reflexivity|]. simpl. rewrite Hr, Hl. done.
Qed.

(** C1 (amended).  In [Once], when the bytes fail to decode: if they were
    freshly produced, the decode error is returned; if they came from the
    cache, [Delete] is called on the key, which removes it from the local
    cache and sends the delete command to the remote store, and then the
    whole of [Once] is run again from the state [Delete] left, whatever
    [Delete] returned. *)
Theorem Once_decode_failure fuel item s b cached s1 tgt v e :
  getSetItemBytesOnce item s = Ok (b, cached, None) s1 ->
  Value item = Some tgt -> b <> [] -> unmarshal b tgt = (v, Some e) ->
  let s2 := withCall (CallUnmarshal b) s1 in
  (cached = false -> Once (S fuel) item s = Ok (Some e, Some v) s2) /\
  (cached = true ->
     exists derr s3,
       Delete (Key item) s2 = Ok derr s3 /\
       LocalCache (opt (cd s3)) =
         (fun lc => fastcache_Del lc (Key item)) <$> LocalCache (opt (cd s2)) /\
       (forall r, Redis (opt (cd s2)) = Some r ->
          Redis (opt (cd s3)) = Some (fst (redis_Del (Key item) r)) /\
          calls s3 = calls s2 ++ [CallRedisDel (Key item)]) /\
       Once (S fuel) item s = Once fuel (withTarget item v) s3).
Proof.
  intros Hlook Htgt Hb Hdec s2.
  assert (Hlen : (Z.of_nat (length b) =? 0) = false).
  { apply Z.eqb_neq. destruct b; [done | simpl; lia]. }
  split; intros Hc; subst cached; rewrite Once_S, Hlook, Htgt, Hlen, Hdec; simpl.
  - reflexivity.
  - fold s2. destruct (Delete_total (Key item) s2) as (derr & s3 & Hdel & Hl & Hr & _).
    exists derr, s3. rewrite Hdel. done.
Qed.




Lemma get_local_hit key tgt s lc b v :
  LocalCache (opt (cd s)) = Some lc -> localGet key s = Ok (b, true) s ->
  b <> [] -> unmarshal b tgt = (v, None) ->
  Get key (Some tgt) s = Ok (None, Some v) (withCall (CallUnmarshal b) s).
Proof.
  intros Hl Hget Hb Hdec. unfold Get, get, getBytes. unfold bind at 1 2 3. unfold getOpt at 1.
  rewrite Hl, Hget. run.
  destruct (Z.eqb_spec (Z.of_nat (length b)) 0) as [E|_].
  { destruct b; [done | simpl in E; lia]. }
  by rewrite Hdec.
Qed.


End CacheProofs.






(** * The theorems on concrete caches

    The general theorems instantiated on [memRedis], [tagSerializer] and
    [secondsCodec], and the inputs on which the code departs from the
    specification. *)

Section Instances.

#[local] Existing Instance tagSerializer.
#[local] Existing Instance secondsCodec.

Lemma tagSerializer_round_trip (v b tgt : list byte) :
  marshal (Some v) = (b, None) -> unmarshal b tgt = (v, None).
Proof. simpl. by intros [= <-]. Qed.

(** Witness of C4: a remote-only cache receives expiration 0 for
    [TTL = -1], one hour for [TTL = 500ms], and two hours for
    [TTL = 2h]. *)
Lemma remote_write_expiration_witness :
  calls <$> final (Set_ (putItem (-1)) (startAt (remoteOnly emptyRedis) 0))
    = Some [CallRedisSet "k" [x01; x2a] 0] /\
  calls <$> final (Set_ (putItem (500 * Millisecond)) (startAt (remoteOnly emptyRedis) 0))
    = Some [CallRedisSet "k" [x01; x2a] Hour] /\
  calls <$> final (Set_ (putItem (2 * Hour)) (startAt (remoteOnly emptyRedis) 0))
    = Some [CallRedisSet "k" [x01; x2a] (2 * Hour)].
Proof.
  set (s0 := startAt (remoteOnly emptyRedis) 0).
  destruct (remote_write_expiration (ser := tagSerializer) (codec := secondsCodec)
              (putItem (-1)) s0 emptyRedis payload [x01; x2a]
              eq_refl eq_refl eq_refl) as (d1 & s1 & Hset1 & _ & Hc1 & Hd1 & _).
  destruct (remote_write_expiration (ser := tagSerializer) (codec := secondsCodec)
              (putItem (500 * Millisecond)) s0 emptyRedis payload [x01; x2a]
              eq_refl eq_refl eq_refl) as (d2 & s2 & Hset2 & _ & Hc2 & _ & Hd2 & _).
  destruct (remote_write_expiration (ser := tagSerializer) (codec := secondsCodec)
              (putItem (2 * Hour)) s0 emptyRedis payload [x01; x2a]
              eq_refl eq_refl eq_refl) as (d3 & s3 & Hset3 & _ & Hc3 & _ & _ & Hd3).
  rewrite Hset1, Hset2, Hset3. simpl. rewrite Hc1, Hc2, Hc3.
  rewrite Hd1, Hd2, Hd3; [done | vm_compute; done | vm_compute; done | vm_compute; done].
Defined.

(** Witness of C3: a window of -1 keeps an entry for hours; a window of 0
    becomes one minute; under a window of 50ms an entry written on a whole
    second is returned 20ms later and is a miss 100ms later, and an entry
    written 30ms after a whole second, whose timestamp is that second, is
    returned 15ms later; a payload of 65531 bytes is not kept and reads as
    a miss, and one of 65530 bytes is kept and returned. *)
Lemma local_staleness_regimes_witness :
  result (writeThenRead "k" payload (T0 + 3 * Hour) (startAt (localOnly (-1) ∅) T0))
    = Some (payload, true) /\
  LocalCacheTTL (opt (New (localOnly 0 ∅))) = Minute /\
  result (writeThenRead "k" payload (T0 + 20 * Millisecond)
            (startAt (localOnly (50 * Millisecond) ∅) T0))
    = Some (payload, true) /\
  result (writeThenRead "k" payload (T0 + 100 * Millisecond)
            (startAt (localOnly (50 * Millisecond) ∅) T0))
    = Some ([], false) /\
  result (writeThenRead "k" payload (T0 + 45 * Millisecond)
            (startAt (localOnly (50 * Millisecond) ∅) (T0 + 30 * Millisecond)))
    = Some (payload, true) /\
  result (writeThenRead "k" oversized T0 (startAt (localOnly (-1) ∅) T0))
    = Some ([], false) /\
  result (writeThenRead "k" largest T0 (startAt (localOnly (-1) ∅) T0))
    = Some (largest, true).
Proof.
  pose proof (local_staleness_regimes (codec := secondsCodec) (localOnly (-1) ∅) ∅
                "k" largest T0 T0 0%nat [] eq_refl) as (Hlargest & _).
  pose proof (local_staleness_regimes (codec := secondsCodec) (localOnly (-1) ∅) ∅
                "k" oversized T0 T0 0%nat [] eq_refl) as (_ & _ & _ & _ & Hdrop).
  pose proof (local_staleness_regimes (codec := secondsCodec) (localOnly (-1) ∅) ∅
                "k" payload T0 (T0 + 3 * Hour) 0%nat [] eq_refl) as (Hnever & _).
  pose proof (local_staleness_regimes (codec := secondsCodec) (localOnly 0 ∅) ∅
                "k" payload T0 T0 0%nat [] eq_refl) as (_ & Hdefault & _).
  pose proof (local_staleness_regimes (codec := secondsCodec)
                (localOnly (50 * Millisecond) ∅) ∅
                "k" payload T0 (T0 + 20 * Millisecond) 0%nat [] eq_refl)
    as (_ & _ & _ & Hfresh & _).
  pose proof (local_staleness_regimes (codec := secondsCodec)
                (localOnly (50 * Millisecond) ∅) ∅
                "k" payload T0 (T0 + 100 * Millisecond) 0%nat [] eq_refl)
    as (_ & _ & _ & Hstale & _).
  pose proof (local_staleness_regimes (codec := secondsCodec)
                (localOnly (50 * Millisecond) ∅) ∅
                "k" payload (T0 + 30 * Millisecond) (T0 + 45 * Millisecond) 0%nat []
                eq_refl)
    as (_ & _ & _ & Hlate & _).
  destruct (Hnever eq_refl) as (_ & Hkept).
  destruct Hkept as (s1 & Hrun1 & _); [vm_compute; reflexivity|].
  destruct Hfresh as (s2 & _ & _ & Hrun2);
    [vm_compute; discriminate | done | vm_compute; reflexivity |].
  destruct Hstale as (s3 & _ & Hrun3 & _);
    [vm_compute; discriminate | done | vm_compute; reflexivity |].
  destruct Hlate as (s4 & _ & _ & Hrun4);
    [vm_compute; discriminate | done | vm_compute; reflexivity |].
  destruct Hdrop as (s5 & Hrun5 & _); [done | vm_compute; discriminate |].
  destruct (Hlargest eq_refl) as (_ & Hkept6).
  destruct Hkept6 as (s6 & Hrun6 & _); [vm_compute; reflexivity|].
  unfold startAt. split; [|split; [|split; [|split; [|split; [|split]]]]].
  - by rewrite Hrun1.
  - by apply Hdefault.
  - rewrite Hrun2; [done | vm_compute; discriminate].
  - rewrite Hrun3; [done | vm_compute; reflexivity].
  - rewrite Hrun4; [done | vm_compute; discriminate].
  - by rewrite Hrun5.
  - by rewrite Hrun6.
Defined.

(** Counterexample to C3 as stated.  (1) The window of minus one second is
    negative, yet a one-byte entry written under it makes the next read
    panic, and a five-byte entry reads as a miss at the very instant it was
    written.  (2) Under the window -1 (never stale) a payload of 65531
    bytes is not kept by the local cache and reads as a miss at once.
    (3) The timestamp holds what the codec keeps of the write instant:
    with [secondsCodec], under a window of 50ms, an entry written 51ms
    after a whole second is a miss at the instant it is written.
    (4) Under a window of 50ms an empty payload makes the read panic. *)
Lemma local_staleness_counterexample :
  (LocalCacheTTL (opt (New (localOnly (- Second) ∅))) < 0 /\
   writeThenRead "k" payload T0 (startAt (localOnly (- Second) ∅) T0)
     = Panicked "not reached" /\
   result (writeThenRead "k" [x2a; x00; x00; x00; x00] T0
             (startAt (localOnly (- Second) ∅) T0))
     = Some ([], false)) /\
  result (writeThenRead "k" oversized T0 (startAt (localOnly (-1) ∅) T0))
    = Some ([], false) /\
  result (writeThenRead "k" payload (T0 + 51 * Millisecond)
            (startAt (localOnly (50 * Millisecond) ∅) (T0 + 51 * Millisecond)))
    = Some ([], false) /\
  writeThenRead "k" [] T0 (startAt (localOnly (50 * Millisecond) ∅) T0)
    = Panicked "not reached".
Proof. vm_compute. done. Qed.

(** C5 (the code departs from the claim).  Under a window of 50ms, writing
    the empty payload locally stores exactly four bytes, and the next local
    read reaches [panic("not reached")].  The public interface gets there:
    when the remote store holds an empty value, a first [Get] succeeds and
    writes it back locally, and the second [Get] panics. *)
Theorem empty_payload_reaches_panic :
  writeThenRead "k" [] T0 (startAt (localOnly (50 * Millisecond) ∅) T0)
    = Panicked "not reached" /\
  exists s1 stamped,
    Get "k" None
        (startAt (mkOptions (Some (redisHolding "k" [])) (Some ∅) (50 * Millisecond) false) T0)
      = Ok (None, None) s1 /\
    LocalCache (opt (cd s1)) = Some {[ "k" := stamped ]} /\
    length stamped = 4%nat /\
    Get "k" None s1 = Panicked "not reached".
Proof.
  split.
  - apply (writeThenRead_empty (codec := secondsCodec) "k" T0 _ ∅);
      [reflexivity | reflexivity | vm_compute; reflexivity].
  - eexists _, _. split; [vm_compute; reflexivity|].
    split; [vm_compute; reflexivity|]. split; reflexivity.
Qed.

(** Witness of C6: the key is held by the local tier only; the remote
    store removes nothing, [Delete] reports a miss and the local entry is
    gone; and when the remote store refuses the command, [Delete] returns
    its error and the local entry is gone all the same. *)
Lemma Delete_reports_remote_count_witness :
  (redis_Del "k" emptyRedis = (emptyRedis, (0, None))) /\
  (exists s',
     Delete "k" (startAt (mkOptions (Some emptyRedis) (Some {[ "k" := payload ]}) (-1) false) 0)
       = Ok (Some ErrCacheMiss) s' /\
     LocalCache (opt (cd s')) = Some (delete "k" {[ "k" := payload ]}) /\
     (forall lc', LocalCache (opt (cd s')) = Some lc' -> lc' !! "k" = None)) /\
  (exists s',
     Delete "k" (startAt (mkOptions (Some deleteRefusingRedis) (Some {[ "k" := payload ]})
                            (-1) false) 0)
       = Ok (Some (errorString "NOPERM")) s' /\
     LocalCache (opt (cd s')) = Some (delete "k" {[ "k" := payload ]})).
Proof.
  set (s0 := startAt (mkOptions (Some emptyRedis) (Some {[ "k" := payload ]}) (-1) false) 0).
  set (sF := startAt (mkOptions (Some deleteRefusingRedis) (Some {[ "k" := payload ]})
                        (-1) false) 0).
  assert (Hr : Redis (opt (cd s0)) = Some emptyRedis) by reflexivity.
  assert (Hd : redis_Del "k" emptyRedis = (emptyRedis, (0, None))) by reflexivity.
  split; [exact Hd|].
  destruct (Delete_reports_remote_count "k" s0 emptyRedis emptyRedis 0 None Hr Hd)
    as (s' & _ & Hzero & _ & Hlc & Hgone & _).
  assert (HrF : Redis (opt (cd sF)) = Some deleteRefusingRedis) by reflexivity.
  assert (HdF : redis_Del "k" deleteRefusingRedis
                = (deleteRefusingRedis, (0, Some (errorString "NOPERM")))) by reflexivity.
  destruct (Delete_reports_remote_count "k" sF deleteRefusingRedis deleteRefusingRedis 0
              (Some (errorString "NOPERM")) HrF HdF)
    as (sF' & Hfail & _ & _ & HlcF & _).
  split.
  - exists s'. split; [by apply Hzero|]. split; [exact Hlc | exact Hgone].
  - exists sF'. split; [exact Hfail | exact HlcF].
Defined.



(** Witness of C8: with neither handle, every operation fails with the
    configuration error when the caller's function and the serializer
    succeed. *)
Lemma no_handles_every_operation_fails_witness :
  (Redis (opt (cd (startAt noHandles 0))) = None /\
   LocalCache (opt (cd (startAt noHandles 0))) = None) /\
  Get "k" (Some payload) (startAt noHandles 0)
    = Ok (Some errRedisLocalCacheNil, Some payload) (startAt noHandles 0) /\
  Exists "k" (startAt noHandles 0) = Ok false (startAt noHandles 0) /\
  Delete "k" (startAt noHandles 0) = Ok (Some errRedisLocalCacheNil) (startAt noHandles 0) /\
  Set_ (onceItem None (counting fresh)) (startAt noHandles 0)
    = Ok (Some errRedisLocalCacheNil) (afterFunc 1%nat (startAt noHandles 0)) /\
  Once 1 (onceItem None (counting fresh)) (startAt noHandles 0)
    = Ok (Some errRedisLocalCacheNil, None) (afterFunc 1%nat (startAt noHandles 0)).
Proof.
  split; [split; reflexivity|].
  destruct (no_handles_every_operation_fails (ser := tagSerializer) (codec := secondsCodec)
              (onceItem None (counting fresh)) "k" (Some payload) 0 (startAt noHandles 0)
              eq_refl eq_refl)
    as (HGet & HExists & HDelete & HSet & HOnce).
  split; [exact HGet|]. split; [exact HExists|]. split; [exact HDelete|]. split.
  - exact (HSet (Some fresh) None (afterFunc 1%nat (startAt noHandles 0)) eq_refl).
  - exact (HOnce (counting fresh) 1%nat (Some fresh) None eq_refl eq_refl).
Defined.

(** Counterexample to C8 as stated: with neither handle and a caller's
    function that fails, [Set] and [Once] return the function's error, not
    the configuration error. *)
Lemma no_handles_Func_error_wins :
  (Redis (opt (cd (startAt noHandles 0))) = None /\
   LocalCache (opt (cd (startAt noHandles 0))) = None) /\
  result (Set_ (onceItem None (failing "boom")) (startAt noHandles 0))
    = Some (Some (errorString "boom")) /\
  result (Once 1 (onceItem None (failing "boom")) (startAt noHandles 0))
    = Some (Some (errorString "boom"), None) /\
  errorString "boom" <> errRedisLocalCacheNil.
Proof. vm_compute. done. Qed.

(** Witness of C9: the remote read fails with a transport error; the
    caller's function runs and its value is written and returned. *)
Lemma onceFn_calls_Func_on_every_read_failure_witness :
  exists s1 s3,
    getBytes "k" (startAt (remoteOnly unreachableRedis) 0)
      = Ok ([], Some (errorString "i/o timeout")) s1 /\
    set "k" (Some fresh) Hour (afterFunc 1%nat s1) = Ok ([x01; x07], None) s3 /\
    onceFn (onceItem (Some []) (counting fresh)) (startAt (remoteOnly unreachableRedis) 0)
      = Ok ([x01; x07], false, None) s3.
Proof.
  set (s0 := startAt (remoteOnly unreachableRedis) 0).
  eassert (Hread : getBytes "k" s0 = Ok ([], Some (errorString "i/o timeout")) _)
    by (vm_compute; reflexivity).
  destruct (onceFn_calls_Func_on_every_read_failure (ser := tagSerializer)
              (codec := secondsCodec) (onceItem (Some []) (counting fresh)) s0 _ _ _ Hread)
    as [_ Hfail].
  destruct (Hfail (errorString "i/o timeout") (counting fresh) 1%nat (Some fresh) None
              eq_refl eq_refl eq_refl) as (b' & serr & s3 & Hset & Honce).
  assert (Hb : (b', serr) = ([x01; x07], None)).
  { apply (f_equal result) in Hset. vm_compute in Hset. congruence. }
  injection Hb as -> ->.
  eexists _, s3. split; [exact Hread|]. split; [exact Hset | exact Honce].
Defined.

(** Counterexample to C9 as stated: the read fails with a transport error,
    not with a miss; the caller's function is invoked all the same, and
    [Once] returns its value instead of the transport error. *)
Lemma transport_error_triggers_Func :
  result (getBytes "k" (startAt (remoteOnly unreachableRedis) 0))
    = Some ([], Some (errorString "i/o timeout")) /\
  result (onceFn (onceItem (Some []) (counting fresh)) (startAt (remoteOnly unreachableRedis) 0))
    = Some ([x01; x07], false, None) /\
  env <$> final (onceFn (onceItem (Some []) (counting fresh))
                   (startAt (remoteOnly unreachableRedis) 0))
    = Some 1%nat /\
  calls <$> final (onceFn (onceItem (Some []) (counting fresh))
                     (startAt (remoteOnly unreachableRedis) 0))
    = Some [CallRedisGet "k"; CallFunc; CallRedisSet "k" [x01; x07] Hour] /\
  result (Once 1 (onceItem (Some []) (counting fresh)) (startAt (remoteOnly unreachableRedis) 0))
    = Some (None, Some fresh).
Proof. vm_compute. done. Qed.

(** Witness of C10: the remote store holds bytes that do not decode; with
    a [nil] target, [Get], [Exists] and [Once] succeed in the state the
    lookup left, whose trace holds the remote read only. *)
Lemma nil_target_or_empty_payload_skips_decoder_witness :
  getBytes "k" (startAt (remoteOnly (redisHolding "k" corrupt)) 0)
    = Ok (corrupt, None)
         (withCall (CallRedisGet "k") (startAt (remoteOnly (redisHolding "k" corrupt)) 0)) /\
  Get "k" None (startAt (remoteOnly (redisHolding "k" corrupt)) 0)
    = Ok (None, None)
         (withCall (CallRedisGet "k") (startAt (remoteOnly (redisHolding "k" corrupt)) 0)) /\
  Exists "k" (startAt (remoteOnly (redisHolding "k" corrupt)) 0)
    = Ok true
         (withCall (CallRedisGet "k") (startAt (remoteOnly (redisHolding "k" corrupt)) 0)) /\
  Once 1 (onceItem None (counting fresh)) (startAt (remoteOnly (redisHolding "k" corrupt)) 0)
    = Ok (None, None)
         (withCall (CallRedisGet "k") (startAt (remoteOnly (redisHolding "k" corrupt)) 0)).
Proof.
  set (s0 := startAt (remoteOnly (redisHolding "k" corrupt)) 0).
  set (s1 := withCall (CallRedisGet "k") s0).
  set (item := onceItem None (counting fresh)).
  assert (Hread : getBytes "k" s0 = Ok (corrupt, None) s1) by reflexivity.
  assert (Hlook : getSetItemBytesOnce item s0 = Ok (corrupt, true, None) s1) by reflexivity.
  destruct (nil_target_or_empty_payload_skips_decoder (ser := tagSerializer)
              (codec := secondsCodec) (U := nat) (R := memRedis))
    as (HGet & HExists & HOnce).
  split; [exact Hread|]. split; [|split].
  - apply (HGet "k" None s0 corrupt s1 Hread). by left.
  - exact (HExists "k" s0 corrupt None s1 Hread).
  - apply (HOnce 0%nat item s0 corrupt true s1 Hlook). by left.
Defined.

(** Witness of C1: the remote store holds bytes that do not decode; [Once]
    reads them from the cache, fails to decode them, deletes the key from
    both tiers and starts again, and the second attempt returns the value
    of the caller's function. *)
Lemma Once_decode_failure_witness :
  exists s1 derr s3,
    getSetItemBytesOnce (onceItem (Some []) (counting fresh))
        (startAt (mkOptions (Some (redisHolding "k" corrupt)) (Some ∅) (-1) false) 0)
      = Ok (corrupt, true, None) s1 /\
    unmarshal corrupt [] = ([], Some (errorString "decode: bad tag")) /\
    Delete "k" (withCall (CallUnmarshal corrupt) s1) = Ok derr s3 /\
    LocalCache (opt (cd s3)) = Some ∅ /\
    Redis (opt (cd s3)) = Some emptyRedis /\
    Once 2 (onceItem (Some []) (counting fresh))
        (startAt (mkOptions (Some (redisHolding "k" corrupt)) (Some ∅) (-1) false) 0)
      = Once 1 (withTarget (onceItem (Some []) (counting fresh)) []) s3 /\
    result (Once 2 (onceItem (Some []) (counting fresh))
              (startAt (mkOptions (Some (redisHolding "k" corrupt)) (Some ∅) (-1) false) 0))
      = Some (None, Some fresh).
Proof.
  set (s0 := startAt (mkOptions (Some (redisHolding "k" corrupt)) (Some ∅) (-1) false) 0).
  set (item := onceItem (Some []) (counting fresh)).
  eassert (Hlook : getSetItemBytesOnce item s0 = Ok (corrupt, true, None) _)
    by (vm_compute; reflexivity).
  destruct (Once_decode_failure (ser := tagSerializer) (codec := secondsCodec)
              1 item s0 corrupt true _ [] [] (errorString "decode: bad tag")
              Hlook eq_refl ltac:(done) eq_refl) as [_ Hcached].
  destruct (Hcached eq_refl) as (derr & s3 & Hdel & Hlc & Hr & Hretry).
  eexists _, derr, s3. split; [exact Hlook|]. split; [reflexivity|].
  split; [exact Hdel|]. split; [|split; [|split]].
  - rewrite Hlc. vm_compute. reflexivity.
  - destruct (Hr _ eq_refl) as [Hr3 _]. rewrite Hr3. vm_compute. reflexivity.
  - exact Hretry.
  - vm_compute. reflexivity.
Defined.

(** Counterexample to C1 as stated: the bytes come from the local cache
    and do not decode, and [Delete] fails because the remote store refuses
    the command; [Once] starts again all the same and returns the value of
    the caller's function, not the decode error. *)
Lemma Once_retries_when_Delete_fails :
  getSetItemBytesOnce (onceItem (Some []) (counting fresh))
      (startAt (mkOptions (Some deleteRefusingRedis) (Some {[ "k" := corrupt ]}) (-1) false) 0)
    = Ok (corrupt, true, None)
         (startAt (mkOptions (Some deleteRefusingRedis) (Some {[ "k" := corrupt ]}) (-1) false) 0) /\
  unmarshal corrupt [] = ([], Some (errorString "decode: bad tag")) /\
  result (Delete "k"
            (withCall (CallUnmarshal corrupt)
               (startAt (mkOptions (Some deleteRefusingRedis) (Some {[ "k" := corrupt ]})
                           (-1) false) 0)))
    = Some (Some (errorString "NOPERM")) /\
  result (Once 2 (onceItem (Some []) (counting fresh))
            (startAt (mkOptions (Some deleteRefusingRedis) (Some {[ "k" := corrupt ]})
                        (-1) false) 0))
    = Some (None, Some fresh) /\
  calls <$> final (Once 2 (onceItem (Some []) (counting fresh))
                     (startAt (mkOptions (Some deleteRefusingRedis)
                                 (Some {[ "k" := corrupt ]}) (-1) false) 0))
    = Some [CallUnmarshal corrupt; CallRedisDel "k"; CallRedisGet "k"; CallFunc;
            CallRedisSet "k" [x01; x07] Hour; CallUnmarshal [x01; x07]].
Proof. vm_compute. done. Qed.

(** When the corrupt entry is held by a remote store that refuses to
    delete it, every attempt finds it again: no depth of recursion lets
    [Once] return. *)
Lemma Once_never_returns_while_Delete_fails fuel :
  forall (s : @state nat memRedis) (item : @Item (list byte) nat) r msg e tgt,
    LocalCache (opt (cd s)) = None -> Redis (opt (cd s)) = Some r ->
    getFault r = None -> delFault r = Some msg ->
    kv r !! Key item = Some (corrupt, e) -> Value item = Some tgt ->
    Once fuel item s = OutOfFuel.
Proof.
  induction fuel as [|fuel IH]; intros s item r msg e tgt Hl Hr Hget Hdel Hkv Htgt;
    [reflexivity|].
  rewrite Once_S, (getSetItemBytesOnce_no_local item s Hl).
  unfold onceFn, getBytes. run. rewrite Hl, Hr. simpl.
  unfold memRedis_Get. rewrite Hget, Hkv. simpl.
  destruct (StatsEnabled (opt (cd s))); simpl; rewrite Htgt; simpl;
    unfold Delete; run; rewrite Hl; simpl; unfold memRedis_Del; rewrite Hdel; simpl;
    by eapply IH.
Qed.

End Instances.
(** * More properties of the two revisions *)

Section CacheMore.

Context {V U R : Type} {redis : rediser R} {ser : serializer V} {codec : timeCodec}.

Implicit Types (s : @state U R) (item : @Item V U) (key : string) (b : list byte).

(** [localGet] returns in the state it was called in, or panics. *)
Lemma localGet_shape key s :
  (exists b ok, localGet key s = Ok (b, ok) s) \/ (exists msg, localGet key s = Panicked msg).
Proof.
  unfold localGet. run. destruct (LocalCache (opt (cd s))) as [lc|]; [|right; by eexists].
  destruct (fastcache_HasGet lc key) as [b ok].
  repeat (case_match; simpl); (left; by eexists _, _) || (right; by eexists).
Qed.

(** The remote half of [getBytes]. *)
Lemma getBytes_remote key s r r' b err :
  (LocalCache (opt (cd s)) = None \/ exists b0, localGet key s = Ok (b0, false) s) ->
  Redis (opt (cd s)) = Some r -> redis_Get key r = (r', (b, err)) ->
  getBytes key s =
    let s1 := withCall (CallRedisGet key) (withRedis r' s) in
    match err with
    | Some e =>
        Ok ([], Some (if is_redis_Nil e then ErrCacheMiss else e))
           (if StatsEnabled (opt (cd s)) then missCounted s1 else s1)
    | None =>
        Ok (b, None)
           (afterLocalSet key b (if StatsEnabled (opt (cd s)) then hitCounted s1 else s1))
    end.
Proof.
  intros Hlocal Hr Hget. unfold getBytes. unfold bind at 1 2. unfold getOpt at 1.
  destruct Hlocal as [Hl|[b0 Hl]].
  - rewrite Hl. unfold ret at 1. rewrite Hr, Hget.
    destruct s as [[[rr ll w st] h m] t u tr]; simpl in *; subst.
    destruct err as [e|], st; run; try destruct (is_redis_Nil e); reflexivity.
  - destruct (LocalCache (opt (cd s))) as [lc|] eqn:Hlc.
    + rewrite Hl, Hr, Hget.
      destruct s as [[[rr ll w st] h m] t u tr]; simpl in *; subst.
      destruct err as [e|], st; run; try (destruct (is_redis_Nil e); reflexivity);
        unfold addHit, localSet, afterLocalSet, stored; run; reflexivity.
    + unfold ret at 1. rewrite Hr, Hget.
      destruct s as [[[rr ll w st] h m] t u tr]; simpl in *; subst.
      destruct err as [e|], st; run; try destruct (is_redis_Nil e); reflexivity.
Qed.


(** The three ways in which [getBytes] returns. *)
Lemma getBytes_cases key s b err s' :
  getBytes key s = Ok (b, err) s' ->
  (s' = s /\ err = None /\ localGet key s = Ok (b, true) s /\
   LocalCache (opt (cd s)) <> None) \/
  (s' = s /\ b = [] /\ Redis (opt (cd s)) = None /\
   err = Some (match LocalCache (opt (cd s)) with
               | None => errRedisLocalCacheNil
               | Some _ => ErrCacheMiss
               end)) \/
  (exists r r' b' rerr,
     Redis (opt (cd s)) = Some r /\ redis_Get key r = (r', (b', rerr)) /\
     let s1 := withCall (CallRedisGet key) (withRedis r' s) in
     match rerr with
     | Some e =>
         b = [] /\ err = Some (if is_redis_Nil e then ErrCacheMiss else e) /\
         s' = (if StatsEnabled (opt (cd s)) then missCounted s1 else s1)
     | None =>
         b = b' /\ err = None /\
         s' = afterLocalSet key b'
                (if StatsEnabled (opt (cd s)) then hitCounted s1 else s1)
     end).
Proof.
  intros Hrun.
  assert (Hlocal : (exists b1, localGet key s = Ok (b1, true) s /\
                               LocalCache (opt (cd s)) <> None) \/
                   (LocalCache (opt (cd s)) = None \/
                    exists b0, localGet key s = Ok (b0, false) s) \/
                   (LocalCache (opt (cd s)) <> None /\
                    exists msg, localGet key s = Panicked msg)).
  { destruct (LocalCache (opt (cd s))) eqn:Hl; [|right; left; by left].
    destruct (localGet_shape key s) as [(b1 & [|] & Hg)|Hp].
    - left. by exists b1.
    - right. left. right. by exists b1.
    - right. right. done. }
  destruct Hlocal as [(b1 & Hhit & Hl)|[Hmiss|(Hl & msg & Hp)]].
  - left. revert Hrun. unfold getBytes. unfold bind at 1 2. unfold getOpt at 1.
    destruct (LocalCache (opt (cd s))); [|done]. rewrite Hhit.
    intros [= <- <- <-]. done.
  - destruct (Redis (opt (cd s))) as [r|] eqn:Hr.
    + right. right. destruct (redis_Get key r) as [r' [b' rerr]] eqn:Hget.
      exists r, r', b', rerr. split; [done|]. split; [done|].
      rewrite (getBytes_remote key s r r' b' rerr Hmiss Hr Hget) in Hrun.
      destruct rerr as [e|]; simpl in *; injection Hrun as <- <- <-; done.
    + right. left. revert Hrun. unfold getBytes. unfold bind at 1 2. unfold getOpt at 1.
      destruct Hmiss as [Hl|[b0 Hg]].
      * rewrite Hl. unfold ret at 1. rewrite Hr. by intros [= <- <- <-].
      * destruct (LocalCache (opt (cd s))) eqn:Hl.
        -- rewrite Hg, Hr. by intros [= <- <- <-].
        -- unfold ret at 1. rewrite Hr. by intros [= <- <- <-].
  - exfalso. revert Hrun. unfold getBytes. unfold bind at 1 2. unfold getOpt at 1.
    destruct (LocalCache (opt (cd s))); [|done]. by rewrite Hp.
Qed.

(** X1.  [Stats()] before and after a read that returns: with the
    statistics disabled it is [nil] both times; with them enabled, a read
    served without the remote store changes no counter, a remote read that
    succeeds adds one hit, and a remote read that fails (not-found
    included) adds one miss. *)
Theorem getBytes_statistics key s b err s' st st' :
  getBytes key s = Ok (b, err) s' ->
  Cache_Stats s = Ok st s -> Cache_Stats s' = Ok st' s' ->
  match st, st' with
  | None, None => StatsEnabled (opt (cd s)) = false
  | Some a, Some a' =>
      (calls s' = calls s /\ Hits a' = Hits a /\ Misses a' = Misses a) \/
      (calls s' = calls s ++ [CallRedisGet key] /\ err = None /\
       Hits a' = AddUint64 (Hits a) /\ Misses a' = Misses a) \/
      (calls s' = calls s ++ [CallRedisGet key] /\ err <> None /\
       Hits a' = Hits a /\ Misses a' = AddUint64 (Misses a))
  | _, _ => False
  end.
Proof.
  intros Hrun Hst Hst'.
  assert (Hflag : StatsEnabled (opt (cd s')) = StatsEnabled (opt (cd s)) /\
                  ((calls s' = calls s /\ hits (cd s') = hits (cd s) /\
                    misses (cd s') = misses (cd s)) \/
                   (StatsEnabled (opt (cd s)) = true /\
                    calls s' = calls s ++ [CallRedisGet key] /\ err = None /\
                    hits (cd s') = AddUint64 (hits (cd s)) /\
                    misses (cd s') = misses (cd s)) \/
                   (StatsEnabled (opt (cd s)) = true /\
                    calls s' = calls s ++ [CallRedisGet key] /\ err <> None /\
                    hits (cd s') = hits (cd s) /\
                    misses (cd s') = AddUint64 (misses (cd s))) \/
                   StatsEnabled (opt (cd s)) = false /\
                   hits (cd s') = hits (cd s) /\ misses (cd s') = misses (cd s))).
  { destruct (getBytes_cases _ _ _ _ _ Hrun)
      as [(-> & _)|[(-> & _)|(r & r' & b' & rerr & Hr & Hget & Hs')]]; [by auto|by auto|].
    simpl in Hs'. destruct rerr as [e|].
    - destruct Hs' as (-> & -> & ->).
      destruct (StatsEnabled (opt (cd s))) eqn:Hen; simpl; rewrite ?Hen; (split; [done|]).
      + right. right. left. repeat split; try done; try (by destruct (is_redis_Nil e)).
      + right. right. right. done.
    - destruct Hs' as (-> & -> & ->). unfold afterLocalSet.
      destruct (StatsEnabled (opt (cd s))) eqn:Hen; simpl;
        destruct (LocalCache (opt (cd s))); simpl; rewrite ?Hen; (split; [done|]).
      + right. left. done.
      + right. left. done.
      + right. right. right. done.
      + right. right. right. done. }
  destruct Hflag as [Hen Hcases].
  unfold Cache_Stats in Hst, Hst'. rewrite Hen in Hst'.
  destruct (StatsEnabled (opt (cd s))) eqn:Hon; simpl in Hst, Hst';
    injection Hst as <-; injection Hst' as <-; [|done].
  simpl. destruct Hcases as [?|[(_ & ?)|[(_ & ?)|(? & _)]]]; [auto | auto | auto | done].
Qed.


Lemma getBytes_local_hit key s b :
  LocalCache (opt (cd s)) <> None -> localGet key s = Ok (b, true) s ->
  getBytes key s = Ok (b, None) s.
Proof.
  intros Hl Hg. unfold getBytes. unfold bind at 1 2. unfold getOpt at 1.
  destruct (LocalCache (opt (cd s))); [|done]. by rewrite Hg.
Qed.

(** X2.  When the local tier does not answer and the remote read fails,
    [Get] returns [ErrCacheMiss] for [redis.Nil] and any other error as it
    is; the target and the local cache are left as they were, the decoder
    is not called, and [Exists] answers false. *)
Theorem Get_reports_remote_failure key tgt s r r' b0 e :
  (LocalCache (opt (cd s)) = None \/ exists b1, localGet key s = Ok (b1, false) s) ->
  Redis (opt (cd s)) = Some r -> redis_Get key r = (r', (b0, Some e)) ->
  exists s',
    Get key tgt s = Ok (Some (if is_redis_Nil e then ErrCacheMiss else e), tgt) s' /\
    Exists key s = Ok false s' /\
    LocalCache (opt (cd s')) = LocalCache (opt (cd s)) /\
    calls s' = calls s ++ [CallRedisGet key].
Proof.
  intros Hmiss Hr Hget.
  pose proof (getBytes_remote key s r r' b0 (Some e) Hmiss Hr Hget) as Hrun. simpl in Hrun.
  eexists. split; [|split; [|split]].
  - unfold Get, get, bind. rewrite Hrun. reflexivity.
  - unfold Exists, Get, get, bind. rewrite Hrun. reflexivity.
  - by destruct (StatsEnabled (opt (cd s))).
  - by destruct (StatsEnabled (opt (cd s))).
Qed.

Lemma calls_afterLocalSet key b s : calls (afterLocalSet key b s) = calls s.
Proof. unfold afterLocalSet. by destruct (LocalCache (opt (cd s))). Qed.

Lemma env_afterLocalSet key b s : env (afterLocalSet key b s) = env s.
Proof. unfold afterLocalSet. by destruct (LocalCache (opt (cd s))). Qed.

Lemma Redis_afterLocalSet key b s :
  Redis (opt (cd (afterLocalSet key b s))) = Redis (opt (cd s)).
Proof. unfold afterLocalSet. by destruct (LocalCache (opt (cd s))). Qed.

Lemma LocalCache_afterLocalSet key b s :
  LocalCache (opt (cd (afterLocalSet key b s))) <> None <->
  LocalCache (opt (cd s)) <> None.
Proof.
  unfold afterLocalSet. destruct (LocalCache (opt (cd s))) eqn:Hl; simpl; [|by rewrite Hl].
  split; intros _; discriminate.
Qed.

Lemma localGet_after_localSet key b s t :
  LocalCache (opt (cd s)) <> None ->
  fastcache_keeps key (stored (LocalCacheTTL (opt (cd s))) (clock s) b) ->
  LocalCacheTTL (opt (cd s)) = 0 \/
  (0 < LocalCacheTTL (opt (cd s)) /\ b <> [] /\
   Since t (decodeTime (encodeTime (clock s))) <= LocalCacheTTL (opt (cd s))) ->
  localGet key (atTime t (afterLocalSet key b s))
    = Ok (b, true) (atTime t (afterLocalSet key b s)).
Proof.
  intros Hl Hfit Hw. unfold afterLocalSet.
  destruct (LocalCache (opt (cd s))) as [lc|] eqn:Hlc; [|done].
  rewrite (fastcache_Set_keeps _ _ _ Hfit).
  destruct Hw as [Hw|(Hw & Hb & Hage)].
  - eapply localGet_never_stale; simpl; [reflexivity | | done].
    unfold stored. rewrite Hw. simpl. apply lookup_insert_eq.
  - rewrite (localGet_stamped key _ (<[key := stored (LocalCacheTTL (opt (cd s))) (clock s) b]> lc)
               b (encodeTime (clock s))); simpl.
    + destruct (Z.gtb_spec (Since t (decodeTime (encodeTime (clock s))))
                  (LocalCacheTTL (opt (cd s)))); [lia | done].
    + reflexivity.
    + unfold stored. destruct (Z.ltb_spec 0 (LocalCacheTTL (opt (cd s)))); [|lia].
      apply lookup_insert_eq.
    + lia.
    + done.
Qed.

(** X3.  A read answered by the remote store writes the bytes back into
    the local cache: when the entry is small enough for the local cache to
    keep it, a second read of the key, while the entry is not stale,
    returns the same bytes without any call to the remote store and
    without any change of state. *)
Theorem remote_hit_repairs_local key s r r' b t :
  LocalCache (opt (cd s)) <> None -> (exists b0, localGet key s = Ok (b0, false) s) ->
  Redis (opt (cd s)) = Some r -> redis_Get key r = (r', (b, None)) ->
  fastcache_keeps key (stored (LocalCacheTTL (opt (cd s))) (clock s) b) ->
  LocalCacheTTL (opt (cd s)) = 0 \/
  (0 < LocalCacheTTL (opt (cd s)) /\ b <> [] /\
   Since t (decodeTime (encodeTime (clock s))) <= LocalCacheTTL (opt (cd s))) ->
  exists s1,
    getBytes key s = Ok (b, None) s1 /\
    calls s1 = calls s ++ [CallRedisGet key] /\
    getBytes key (atTime t s1) = Ok (b, None) (atTime t s1).
Proof.
  intros Hl Hmiss Hr Hget Hfit Hw.
  pose proof (getBytes_remote key s r r' b None (or_intror Hmiss) Hr Hget) as Hrun.
  simpl in Hrun. eexists. split; [exact Hrun|]. split.
  - rewrite calls_afterLocalSet. by destruct (StatsEnabled (opt (cd s))).
  - apply getBytes_local_hit.
    + simpl. apply LocalCache_afterLocalSet. by destruct (StatsEnabled (opt (cd s))).
    + apply localGet_after_localSet; by destruct (StatsEnabled (opt (cd s))).
Qed.

(** X4.  With a local cache and no remote store, [Delete] reports
    success whether or not the key was cached, makes no remote call, and a
    following [Get] of the key is a miss. *)
Theorem Delete_local_only_always_succeeds key tgt s lc :
  Redis (opt (cd s)) = None -> LocalCache (opt (cd s)) = Some lc ->
  exists s',
    Delete key s = Ok None s' /\
    LocalCache (opt (cd s')) = Some (delete key lc) /\
    calls s' = calls s /\
    Get key tgt s' = Ok (Some ErrCacheMiss, tgt) s'.
Proof.
  intros Hr Hl. unfold Delete. run. rewrite Hl, Hr. simpl.
  eexists. split; [reflexivity|]. split; [reflexivity|]. split; [reflexivity|].
  unfold Get, get, getBytes. unfold bind at 1 2 3. unfold getOpt at 1. simpl.
  erewrite localGet_absent; [| reflexivity | apply lookup_delete_eq].
  simpl. by rewrite Hr.
Qed.


Lemma localGet_ext key s1 s2 r :
  LocalCache (opt (cd s1)) = LocalCache (opt (cd s2)) ->
  LocalCacheTTL (opt (cd s1)) = LocalCacheTTL (opt (cd s2)) ->
  clock s1 = clock s2 ->
  localGet key s1 = Ok r s1 -> localGet key s2 = Ok r s2.
Proof.
  destruct s1 as [[[r1 l1 w1 st1] h1 m1] t1 u1 tr1], s2 as [[[r2 l2 w2 st2] h2 m2] t2 u2 tr2].
  simpl. intros -> -> ->. unfold localGet. run.
  destruct l2 as [lc|]; [|done].
  destruct (fastcache_HasGet lc key) as [b ok].
  repeat (case_match; simpl); congruence.
Qed.

(** X5.  [set] writes the local cache before the remote store: when the
    remote write fails, [Set] returns that error, yet the value, when its
    entry is small enough for the local cache to keep it, is in the local
    cache and a following [Get] returns it. *)
Theorem failed_remote_write_stays_readable item v b tgt s r e t :
  (forall v' b' tgt', marshal (Some v') = (b', None) -> unmarshal b' tgt' = (v', None)) ->
  Value item = Some v -> marshal (Some v) = (b, None) -> b <> [] ->
  LocalCache (opt (cd s)) <> None -> Redis (opt (cd s)) = Some r ->
  snd (redis_Set (Key item) b (exp item) r) = Some e ->
  fastcache_keeps (Key item) (stored (LocalCacheTTL (opt (cd s))) (clock s) b) ->
  LocalCacheTTL (opt (cd s)) = 0 \/
  (0 < LocalCacheTTL (opt (cd s)) /\
   Since t (decodeTime (encodeTime (clock s))) <= LocalCacheTTL (opt (cd s))) ->
  exists s1 s2,
    Set_ item s = Ok (Some e) s1 /\
    (sleepUntil t ;;; Get (Key item) (Some tgt)) s1 = Ok (None, Some v) s2 /\
    calls s2 = calls s ++ [CallRedisSet (Key item) b (exp item); CallUnmarshal b].
Proof.
  intros Hlaw Hv Hm Hb Hl Hr Hfail Hfit Hw.
  assert (Hdec : unmarshal b tgt = (v, None)) by (by apply Hlaw).
  unfold Set_, value. rewrite Hv. unfold bind at 1. unfold ret at 1. unfold bind at 1.
  rewrite (set_run _ _ _ _ b Hm), Hr, Hfail.
  set (s1 := withCall _ _).
  assert (Hget : localGet (Key item) (atTime t s1) = Ok (b, true) (atTime t s1)).
  { apply (localGet_ext (Key item) (atTime t (afterLocalSet (Key item) b s)));
      [reflexivity | reflexivity | reflexivity |].
    apply localGet_after_localSet; [done | done |]. destruct Hw as [?|[? ?]]; auto. }
  destruct (LocalCache (opt (cd (atTime t s1)))) as [lc1|] eqn:Hl1.
  - eexists _, _. split; [reflexivity|]. split.
    + unfold bind at 1. unfold sleepUntil. fold (atTime t s1).
      exact (get_local_hit (Key item) tgt (atTime t s1) lc1 b v Hl1 Hget Hb Hdec).
    + subst s1. simpl. rewrite calls_afterLocalSet. by rewrite <- app_assoc.
  - exfalso. subst s1. simpl in Hl1. by apply (LocalCache_afterLocalSet (Key item) b s) in Hl.
Qed.

(** X6.  [Set] encodes [item.Value] when it is not [nil] and then never
    calls [item.Func]; with [Value] [nil] it calls [item.Func] exactly
    once and encodes its result, or returns its error and writes nothing;
    with both [nil] it encodes [nil].  Below [v] is the value so chosen and
    [s0] the state once it is chosen.  When the encoder fails its error is
    returned and nothing is written.  Otherwise, with [b] the encoder's
    bytes: the local cache, if there is one, is given [b] (with the
    timestamp under a positive window); the remote store, if there is one,
    gets exactly one write of [b] with [item.exp()] and [Set] returns its
    error; with no remote store [Set] returns [nil] when there is a local
    cache and the error of the missing handles when there is none. *)
Theorem Set_takes_Value_before_Func item s :
  (forall f u v e, Value item = None -> Func item = Some f ->
     f (env s) = (u, (v, Some e)) ->
     Set_ item s = Ok (Some e) (afterFunc u s)) /\
  (forall v s0,
     (exists v', Value item = Some v' /\ v = Some v' /\ s0 = s) \/
     (exists f u, Value item = None /\ Func item = Some f /\
                  f (env s) = (u, (v, None)) /\ s0 = afterFunc u s) \/
     (Value item = None /\ Func item = None /\ v = None /\ s0 = s) ->
     calls s0 = calls s ++
                (match Value item, Func item with
                 | None, Some _ => [CallFunc]
                 | _, _ => []
                 end) /\
     (forall b e, marshal v = (b, Some e) -> Set_ item s = Ok (Some e) s0) /\
     (forall b, marshal v = (b, None) ->
        (forall r, Redis (opt (cd s)) = Some r ->
           Set_ item s =
             Ok (snd (redis_Set (Key item) b (exp item) r))
                (withCall (CallRedisSet (Key item) b (exp item))
                   (withRedis (fst (redis_Set (Key item) b (exp item) r))
                      (afterLocalSet (Key item) b s0)))) /\
        (Redis (opt (cd s)) = None -> LocalCache (opt (cd s)) <> None ->
           Set_ item s = Ok None (afterLocalSet (Key item) b s0)) /\
        (Redis (opt (cd s)) = None -> LocalCache (opt (cd s)) = None ->
           Set_ item s = Ok (Some errRedisLocalCacheNil) s0))).
Proof.
  split.
  - intros f u v e Hv Hf Hrun. unfold Set_, value. rewrite Hv, Hf.
    unfold bind at 1. unfold callFunc. by rewrite Hrun.
  - intros v s0 Hsrc.
    assert (Hval : value item s = Ok (v, None) s0 /\
                   Redis (opt (cd s0)) = Redis (opt (cd s)) /\
                   LocalCache (opt (cd s0)) = LocalCache (opt (cd s)) /\
                   calls s0 = calls s ++
                              (match Value item, Func item with
                               | None, Some _ => [CallFunc]
                               | _, _ => []
                               end)).
    { destruct Hsrc as [(v' & Hv & -> & ->)|[(f & u & Hv & Hf & Hrun & ->)|(Hv & Hf & -> & ->)]];
        unfold value; rewrite Hv; rewrite ?Hf; rewrite ?app_nil_r.
      - done.
      - unfold callFunc. by rewrite Hrun.
      - done. }
    destruct Hval as (Hval & Hr0 & Hl0 & Hcalls). split; [exact Hcalls|]. split.
    + intros b e Hm. unfold Set_. unfold bind at 1. rewrite Hval.
      unfold set. rewrite Hm. reflexivity.
    + intros b Hm.
      assert (Hset : Set_ item s =
                match set (Key item) v (exp item) s0 with
                | Ok (_, err) s' => Ok err s'
                | Panicked msg => Panicked msg
                | OutOfFuel => OutOfFuel
                end).
      { unfold Set_. unfold bind at 1. rewrite Hval. unfold bind.
        by destruct (set (Key item) v (exp item) s0) as [[? ?] ?| |]. }
      rewrite Hset, (set_run _ _ _ _ b Hm), Hr0, Hl0.
      split; [|split].
      * intros r ->. reflexivity.
      * intros -> Hl. by destruct (LocalCache (opt (cd s))).
      * intros -> ->. reflexivity.
Qed.

Lemma getSetItemBytesOnce_miss item s :
  (LocalCache (opt (cd s)) = None \/ exists b0, localGet (Key item) s = Ok (b0, false) s) ->
  getSetItemBytesOnce item s =
    match onceFn item s with
    | Ok (v, cached, Some err) s1 => Ok ([], false, Some err) s1
    | r => r
    end.
Proof.
  intros [Hl|[b0 Hg]]; [by apply getSetItemBytesOnce_no_local|].
  destruct (LocalCache (opt (cd s))) eqn:Hl; [|by apply getSetItemBytesOnce_no_local].
  unfold getSetItemBytesOnce. unfold bind at 1 2. unfold getOpt at 1. rewrite Hl, Hg.
  unfold bind. by destruct (onceFn item s) as [[[? ?] [?|]] ?| |].
Qed.

Lemma getSetItemBytesOnce_hit item s b :
  LocalCache (opt (cd s)) <> None -> localGet (Key item) s = Ok (b, true) s ->
  getSetItemBytesOnce item s = Ok (b, true, None) s.
Proof.
  intros Hl Hg. unfold getSetItemBytesOnce. unfold bind at 1 2. unfold getOpt at 1.
  destruct (LocalCache (opt (cd s))); [|done]. by rewrite Hg.
Qed.

Lemma getBytes_error_local_miss key s b e s1 :
  getBytes key s = Ok (b, Some e) s1 ->
  LocalCache (opt (cd s)) = None \/ exists b0, localGet key s = Ok (b0, false) s.
Proof.
  intros Hread. destruct (LocalCache (opt (cd s))) eqn:Hl; [|by left].
  destruct (localGet_shape key s) as [(b1 & [|] & Hg)|[msg Hp]].
  - rewrite (getBytes_local_hit key s b1) in Hread; [done | by rewrite Hl | done].
  - right. by exists b1.
  - revert Hread. unfold getBytes. unfold bind at 1 2. unfold getOpt at 1.
    by rewrite Hl, Hp.
Qed.

(** X7.  [Once] on an item without [Func] panics as soon as the read of
    the key fails, whatever the failure. *)
Theorem Once_without_Func_panics_on_miss fuel item s b e s1 :
  getBytes (Key item) s = Ok (b, Some e) s1 -> Func item = None ->
  Once (S fuel) item s = Panicked "nil pointer dereference".
Proof.
  intros Hread Hf.
  rewrite Once_S, (getSetItemBytesOnce_miss item s (getBytes_error_local_miss _ _ _ _ _ Hread)).
  unfold onceFn, bind. by rewrite Hread, Hf.
Qed.

(** X10.  The expiration handed to the remote store is 0 exactly for a
    negative TTL, and is at least one second otherwise: the remote store
    never receives a negative or a sub-second expiration. *)
Theorem exp_is_zero_or_at_least_a_second item :
  (exp item = 0 <-> TTL item < 0) /\
  (TTL item >= 0 -> Second <= exp item) /\
  (exp item = 0 \/ Second <= exp item).
Proof.
  unfold exp, Hour, Minute, Second.
  destruct (Z.ltb_spec (TTL item) 0); [split; [split; [done|done]|split; [lia|by left]]|].
  destruct (Z.ltb_spec (TTL item) 1000000000); (split; [split; lia|split; [lia|right; lia]]).
Qed.

(** X11.  After [init] the window is never -1; it is 0 exactly when -1
    was configured, and one minute when 0 was configured; [init] changes
    nothing else.  [New] runs [init] on the caller's [Options] in place,
    and [init] is idempotent exactly on options whose window is not -1: on
    options configured with -1 a second run turns the window 0 left by the
    first into one minute. *)
Theorem init_twice (o : @Options R) :
  LocalCacheTTL (init o) <> -1 /\
  (LocalCacheTTL (init o) = 0 <-> LocalCacheTTL o = -1) /\
  (LocalCacheTTL o = 0 -> LocalCacheTTL (init o) = Minute) /\
  (LocalCacheTTL o = -1 -> LocalCacheTTL (init (init o)) = Minute) /\
  (init (init o) = init o <-> LocalCacheTTL o <> -1) /\
  Redis (init o) = Redis o /\ LocalCache (init o) = LocalCache o /\
  StatsEnabled (init o) = StatsEnabled o.
Proof.
  unfold init, Minute, Second.
  destruct (Z.eqb_spec (LocalCacheTTL o) (-1)) as [E1|E1]; simpl.
  - repeat split; try done; try lia.
  - destruct (Z.eqb_spec (LocalCacheTTL o) 0) as [E0|E0]; simpl.
    + repeat split; try done; try lia.
    + destruct (Z.eqb_spec (LocalCacheTTL o) (-1)); [done|].
      destruct (Z.eqb_spec (LocalCacheTTL o) 0); [done|].
      repeat split; try done; try lia.
Qed.

(** X12.  A local entry older than the window is reported as a miss by
    [Get] and [Exists] (with no remote store), and the call returns in the
    state it started in: the stale entry is not removed from the local
    cache. *)
Theorem stale_entry_is_a_miss_and_stays key tgt s lc b q :
  LocalCache (opt (cd s)) = Some lc -> lc !! key = Some (b ++ stamp_bytes q) ->
  b <> [] -> 0 < LocalCacheTTL (opt (cd s)) ->
  Since (clock s) (decodeTime q) > LocalCacheTTL (opt (cd s)) ->
  Redis (opt (cd s)) = None ->
  Get key tgt s = Ok (Some ErrCacheMiss, tgt) s /\ Exists key s = Ok false s.
Proof.
  intros Hl Hk Hb Hw Hage Hr.
  assert (Hg : localGet key s = Ok ([], false) s).
  { rewrite (localGet_stamped key s lc b q Hl Hk); [|lia|done].
    destruct (Z.gtb_spec (Since (clock s) (decodeTime q)) (LocalCacheTTL (opt (cd s))));
      [done|lia]. }
  assert (Hread : getBytes key s = Ok ([], Some ErrCacheMiss) s).
  { unfold getBytes. unfold bind at 1 2. unfold getOpt at 1. by rewrite Hl, Hg, Hr. }
  split.
  - unfold Get, get, bind. by rewrite Hread.
  - unfold Exists, Get, get, bind. by rewrite Hread.
Qed.


(** [onceFn] when the read fails and the caller's function returns a value
    that is written. *)
Lemma onceFn_produces item s s1 b0 e f u (v : option V) b :
  getBytes (Key item) s = Ok (b0, Some e) s1 ->
  Func item = Some f -> f (env s1) = (u, (v, None)) -> marshal v = (b, None) ->
  forall r, Redis (opt (cd s1)) = Some r ->
  onceFn item s =
    Ok (match snd (redis_Set (Key item) b (exp item) r) with
        | Some se => ([], false, Some se)
        | None => (b, false, None)
        end)
       (withCall (CallRedisSet (Key item) b (exp item))
          (withRedis (fst (redis_Set (Key item) b (exp item) r))
             (afterLocalSet (Key item) b (afterFunc u s1)))).
Proof.
  intros Hread Hf Hfu Hm r Hr. unfold onceFn. unfold bind at 1. rewrite Hread, Hf.
  unfold bind at 1. unfold callFunc. rewrite Hfu. fold (afterFunc u s1).
  unfold bind. rewrite (set_run _ _ _ _ b Hm). simpl. rewrite Hr.
  by destruct (snd (redis_Set (Key item) b (exp item) r)).
Qed.

Lemma afterRemoteMiss_facts key (r : R) s :
  env (afterRemoteMiss key r s) = env s /\
  Redis (opt (cd (afterRemoteMiss key r s))) = Some r /\
  LocalCache (opt (cd (afterRemoteMiss key r s))) = LocalCache (opt (cd s)) /\
  LocalCacheTTL (opt (cd (afterRemoteMiss key r s))) = LocalCacheTTL (opt (cd s)) /\
  clock (afterRemoteMiss key r s) = clock s /\
  calls (afterRemoteMiss key r s) = calls s ++ [CallRedisGet key].
Proof. unfold afterRemoteMiss. by destruct (StatsEnabled (opt (cd s))). Qed.

Lemma afterRemoteHit_facts key (r : R) s :
  env (afterRemoteHit key r s) = env s /\
  Redis (opt (cd (afterRemoteHit key r s))) = Some r /\
  LocalCache (opt (cd (afterRemoteHit key r s))) = LocalCache (opt (cd s)) /\
  LocalCacheTTL (opt (cd (afterRemoteHit key r s))) = LocalCacheTTL (opt (cd s)) /\
  clock (afterRemoteHit key r s) = clock s /\
  calls (afterRemoteHit key r s) = calls s ++ [CallRedisGet key].
Proof. unfold afterRemoteHit. by destruct (StatsEnabled (opt (cd s))). Qed.

(** [Once] when nothing is cached under the key: the caller's function
    runs, its value is written to both tiers and decoded. *)
Lemma Once_on_miss fuel item s r r1 b0 e f u v b tgt :
  Value item = Some tgt -> Func item = Some f ->
  (LocalCache (opt (cd s)) = None \/ exists b1, localGet (Key item) s = Ok (b1, false) s) ->
  Redis (opt (cd s)) = Some r -> redis_Get (Key item) r = (r1, (b0, Some e)) ->
  f (env s) = (u, (Some v, None)) -> marshal (Some v) = (b, None) -> b <> [] ->
  snd (redis_Set (Key item) b (exp item) r1) = None -> unmarshal b tgt = (v, None) ->
  Once (S fuel) item s =
    Ok (None, Some v)
       (withCall (CallUnmarshal b)
          (withCall (CallRedisSet (Key item) b (exp item))
             (withRedis (fst (redis_Set (Key item) b (exp item) r1))
                (afterLocalSet (Key item) b
                   (afterFunc u (afterRemoteMiss (Key item) r1 s)))))).
Proof.
  intros Htgt Hf Hmiss Hr Hget Hfu Hm Hb Hset Hdec.
  assert (Hlen : (Z.of_nat (length b) =? 0) = false).
  { apply Z.eqb_neq. destruct b; [done | simpl; lia]. }
  pose proof (getBytes_remote (Key item) s r r1 b0 (Some e) Hmiss Hr Hget) as Hread.
  simpl in Hread. fold (afterRemoteMiss (Key item) r1 s) in Hread.
  destruct (afterRemoteMiss_facts (Key item) r1 s) as (He0 & Hr0 & _).
  pose proof (onceFn_produces item s _ [] _ f u (Some v) b Hread Hf
                ltac:(by rewrite He0) Hm r1 Hr0) as Hfn.
  rewrite Hset in Hfn.
  rewrite Once_S, (getSetItemBytesOnce_miss item s Hmiss), Hfn, Htgt, Hlen, Hdec.
  reflexivity.
Qed.

(** X8.  [Once] on a key that no tier holds calls the caller's function
    once, writes the value to both tiers and returns it; when the entry is
    small enough for the local cache to keep it, a second [Once], while the
    local entry is not stale, is served by the local cache: it returns the
    same value and calls neither the function nor the remote store. *)
Theorem Once_computes_once fuel fuel' item s lc r r1 b0 e f u v b tgt t :
  (forall v' b' tgt', marshal (Some v') = (b', None) -> unmarshal b' tgt' = (v', None)) ->
  Value item = Some tgt -> Func item = Some f ->
  LocalCache (opt (cd s)) = Some lc -> lc !! Key item = None ->
  Redis (opt (cd s)) = Some r -> redis_Get (Key item) r = (r1, (b0, Some e)) ->
  f (env s) = (u, (Some v, None)) -> marshal (Some v) = (b, None) -> b <> [] ->
  snd (redis_Set (Key item) b (exp item) r1) = None ->
  fastcache_keeps (Key item) (stored (LocalCacheTTL (opt (cd s))) (clock s) b) ->
  LocalCacheTTL (opt (cd s)) = 0 \/
  (0 < LocalCacheTTL (opt (cd s)) /\
   Since t (decodeTime (encodeTime (clock s))) <= LocalCacheTTL (opt (cd s))) ->
  exists s1,
    Once (S fuel) item s = Ok (None, Some v) s1 /\
    env s1 = u /\
    calls s1 = calls s ++ [CallRedisGet (Key item); CallFunc;
                           CallRedisSet (Key item) b (exp item); CallUnmarshal b] /\
    Once (S fuel') item (atTime t s1)
      = Ok (None, Some v) (withCall (CallUnmarshal b) (atTime t s1)).
Proof.
  intros Hlaw Htgt Hf Hl Hk Hr Hget Hfu Hm Hb Hset Hfit Hw.
  assert (Hdec : unmarshal b tgt = (v, None)) by (by apply Hlaw).
  assert (Hlen : (Z.of_nat (length b) =? 0) = false).
  { apply Z.eqb_neq. destruct b; [done | simpl; lia]. }
  assert (Hmiss : LocalCache (opt (cd s)) = None \/
                  exists b1, localGet (Key item) s = Ok (b1, false) s).
  { right. exists []. by apply (localGet_absent _ _ lc). }
  destruct (afterRemoteMiss_facts (Key item) r1 s) as (He0 & Hr0 & Hl0 & Hw0 & Hc0 & Htr0).
  eexists. split; [|split; [|split]].
  - exact (Once_on_miss fuel item s r r1 b0 e f u v b tgt
             Htgt Hf Hmiss Hr Hget Hfu Hm Hb Hset Hdec).
  - simpl. by rewrite env_afterLocalSet.
  - simpl. rewrite calls_afterLocalSet. simpl. rewrite Htr0. by rewrite <- !app_assoc.
  - set (s0 := afterRemoteMiss (Key item) r1 s) in *.
    match goal with |- Once _ _ ?st = _ => set (s2 := st) end.
    assert (Hhit : localGet (Key item) s2 = Ok (b, true) s2).
    { apply (localGet_ext (Key item) (atTime t (afterLocalSet (Key item) b (afterFunc u s0))));
        [reflexivity | reflexivity | reflexivity |].
      apply localGet_after_localSet; simpl.
      - by rewrite Hl0, Hl.
      - by rewrite Hw0, Hc0.
      - rewrite Hw0, Hc0. destruct Hw as [?|[? ?]]; auto. }
    rewrite Once_S, (getSetItemBytesOnce_hit _ _ b); [| |exact Hhit].
    + by rewrite Htgt, Hlen, Hdec.
    + subst s2. simpl. apply LocalCache_afterLocalSet. simpl. by rewrite Hl0, Hl.
Qed.

Lemma Delete_run key s r :
  Redis (opt (cd s)) = Some r ->
  Delete key s =
    Ok (match snd (redis_Del key r) with
        | (_, Some e) => Some e
        | (n, None) => if n =? 0 then Some ErrCacheMiss else None
        end)
       (withCall (CallRedisDel key) (withRedis (fst (redis_Del key r)) (afterLocalDel key s))).
Proof.
  intros Hr. unfold Delete, afterLocalDel. run. rewrite Hr.
  destruct (redis_Del key r) as [r' [n [e|]]] eqn:Hd;
    destruct (LocalCache (opt (cd s))) eqn:Hl; simpl; rewrite ?Hd; simpl;
    try destruct (n =? 0); reflexivity.
Qed.

Lemma afterLocalDel_facts key s :
  env (afterLocalDel key s) = env s /\ calls (afterLocalDel key s) = calls s /\
  Redis (opt (cd (afterLocalDel key s))) = Redis (opt (cd s)).
Proof. unfold afterLocalDel. by destruct (LocalCache (opt (cd s))). Qed.

Lemma localGet_after_Delete key s :
  LocalCache (opt (cd (afterLocalDel key s))) = None \/
  exists b1, localGet key (afterLocalDel key s) = Ok (b1, false) (afterLocalDel key s).
Proof.
  unfold afterLocalDel. destruct (LocalCache (opt (cd s))) as [lc|] eqn:Hl; [|by left].
  right. exists []. eapply localGet_absent; simpl; [reflexivity|apply lookup_delete_eq].
Qed.

(** X9.  When the remote store holds bytes that do not decode, [Once]
    reads them, deletes the key, reads again, and, the key being gone,
    calls the caller's function and returns its value; the caller sees no
    decode error, whatever the delete command answered. *)
Theorem Once_heals_undecodable_entry fuel item s r r1 r2 r3 bad tgt tgt' de n derr b0 ge
    f u v b :
  Value item = Some tgt -> Func item = Some f ->
  (forall lc, LocalCache (opt (cd s)) = Some lc -> lc !! Key item = None) ->
  Redis (opt (cd s)) = Some r ->
  redis_Get (Key item) r = (r1, (bad, None)) -> bad <> [] ->
  unmarshal bad tgt = (tgt', Some de) ->
  redis_Del (Key item) r1 = (r2, (n, derr)) ->
  redis_Get (Key item) r2 = (r3, (b0, Some ge)) ->
  f (env s) = (u, (Some v, None)) -> marshal (Some v) = (b, None) -> b <> [] ->
  snd (redis_Set (Key item) b (exp item) r3) = None ->
  unmarshal b tgt' = (v, None) ->
  exists s',
    Once (S (S fuel)) item s = Ok (None, Some v) s' /\
    env s' = u /\
    calls s' = calls s ++
      [CallRedisGet (Key item); CallUnmarshal bad; CallRedisDel (Key item);
       CallRedisGet (Key item); CallFunc; CallRedisSet (Key item) b (exp item);
       CallUnmarshal b].
Proof.
  intros Htgt Hf Hk Hr Hget Hbad Hdec1 Hdel Hget2 Hfu Hm Hb Hset Hdec2.
  assert (Hlen : (Z.of_nat (length bad) =? 0) = false).
  { apply Z.eqb_neq. destruct bad; [done | simpl; lia]. }
  assert (Hmiss : LocalCache (opt (cd s)) = None \/
                  exists b1, localGet (Key item) s = Ok (b1, false) s).
  { destruct (LocalCache (opt (cd s))) as [lc|] eqn:Hl; [|by left].
    right. exists []. apply (localGet_absent _ _ lc Hl). by apply Hk. }
  pose proof (getBytes_remote (Key item) s r r1 bad None Hmiss Hr Hget) as Hread.
  simpl in Hread. fold (afterRemoteHit (Key item) r1 s) in Hread.
  destruct (afterRemoteHit_facts (Key item) r1 s) as (He0 & Hr0 & Hl0 & Hw0 & Hc0 & Htr0).
  set (sA := afterLocalSet (Key item) bad (afterRemoteHit (Key item) r1 s)) in *.
  set (sB := withCall (CallUnmarshal bad) sA).
  assert (HrB : Redis (opt (cd sB)) = Some r1).
  { subst sB sA. simpl. by rewrite Redis_afterLocalSet. }
  pose proof (Delete_run (Key item) sB r1 HrB) as Hdelete. rewrite Hdel in Hdelete.
  simpl in Hdelete.
  set (sC := withCall (CallRedisDel (Key item)) (withRedis r2 (afterLocalDel (Key item) sB)))
    in *.
  assert (HmissC : LocalCache (opt (cd sC)) = None \/
                   exists b1, localGet (Key item) sC = Ok (b1, false) sC).
  { destruct (localGet_after_Delete (Key item) sB) as [Hn|[b1 Hg]]; [by left|].
    right. exists b1. by apply (localGet_ext (Key item) (afterLocalDel (Key item) sB)). }
  destruct (afterLocalDel_facts (Key item) sB) as (HeD & HcD & _).
  assert (HenvC : env sC = env s).
  { subst sC. simpl. rewrite HeD. subst sB sA. simpl. by rewrite env_afterLocalSet. }
  assert (HcallsC : calls sC = calls s ++ [CallRedisGet (Key item); CallUnmarshal bad;
                                           CallRedisDel (Key item)]).
  { subst sC. simpl. rewrite HcD. subst sB sA. simpl. rewrite calls_afterLocalSet, Htr0.
    by rewrite <- !app_assoc. }
  pose proof (Once_on_miss fuel (withTarget item tgt') sC r2 r3 b0 ge f u v b tgt'
                eq_refl Hf HmissC eq_refl Hget2 ltac:(by rewrite HenvC) Hm Hb Hset Hdec2)
    as Hretry.
  eexists. split; [|split].
  - rewrite Once_S.
    assert (Hlook : getSetItemBytesOnce item s = Ok (bad, true, None) sA).
    { rewrite (getSetItemBytesOnce_miss item s Hmiss). unfold onceFn, bind.
      by rewrite Hread. }
    rewrite Hlook, Htgt, Hlen, Hdec1. simpl. fold sB. rewrite Hdelete. exact Hretry.
  - simpl. by rewrite env_afterLocalSet.
  - simpl. rewrite calls_afterLocalSet. simpl.
    destruct (afterRemoteMiss_facts (Key item) r3 sC) as (_ & _ & _ & _ & _ & ->).
    rewrite HcallsC. by rewrite <- !app_assoc.
Qed.

End CacheMore.





Ltac run2 :=
  unfold bind, ret, panic, getOpt, Now, putLocalCache, putRedis, log, addHit, addMiss,
    Codec.getCodec, Codec.putLocalCache, Codec.putRedis, Codec.log,
    Codec.addHit, Codec.addMiss, Codec.addLocalHit, Codec.addLocalMiss;
  simpl.

Section RevisionsAgree.

Context {V U R : Type} {redis : rediser R} {codec : timeCodec}.

(** The first revision encodes with the package's [marshal] and
    [unmarshal], the second with [msgpack.Marshal] and
    [msgpack.Unmarshal]: [ser] stands for the former pair, [mp] for the
    latter, and the two are assumed to compute the same functions. *)
Variables (ser mp : serializer V).
Hypothesis marshal_agrees : forall v, @marshal V ser v = @marshal V mp v.
Hypothesis unmarshal_agrees : forall b tgt, @unmarshal V ser b tgt = @unmarshal V mp b tgt.

Implicit Types (sa : @state U R) (sb : @Codec.state U R) (item : @Item V U).

Ltac open_states s1 s2 H :=
  destruct s1 as [[[?r1 ?l1 ?w1 ?st1] ?h1 ?m1] ?t1 ?u1 ?tr1];
  destruct s2 as [[?r2 ?l2 ?h2 ?m2 ?lh ?lm] ?u2 ?tr2];
  destruct H as (? & ? & ? & ? & ? & ? & ? & ?); simpl in *; subst.

Lemma sameOutcome_bind {A B} (m1 : M (@state U R) A) (m2 : M (@Codec.state U R) A)
    (k1 : A -> M (@state U R) B) (k2 : A -> M (@Codec.state U R) B) s1 s2 :
  sameOutcome (m1 s1) (m2 s2) ->
  (forall a s1' s2', agrees s1' s2' -> sameOutcome (k1 a s1') (k2 a s2')) ->
  sameOutcome (bind m1 k1 s1) (bind m2 k2 s2).
Proof.
  intros Hm Hk. unfold bind.
  destruct (m1 s1) as [a1 s1'| |], (m2 s2) as [a2 s2'| |]; simpl in *; try done.
  destruct Hm as [-> Hs]. by apply Hk.
Qed.

Lemma agree_getBytes key sa sb :
  agrees sa sb -> sameOutcome (getBytes key sa) (Codec.getBytes key sb).
Proof.
  intros H. open_states sa sb H.
  unfold getBytes, Codec.getBytes, localGet, localSet, fastcache_HasGet. run2.
  destruct l2 as [lc|]; simpl.
  - destruct (lc !! key) as [b|] eqn:Hk; simpl.
    + rewrite orb_true_r. simpl. done.
    + destruct r2 as [r|]; simpl; [|done].
      destruct (redis_Get key r) as [r' [b [e|]]]; simpl.
      * destruct (is_redis_Nil e); simpl; done.
      * done.
  - destruct r2 as [r|]; simpl; [|done].
    destruct (redis_Get key r) as [r' [b [e|]]]; simpl.
    + destruct (is_redis_Nil e); simpl; done.
    + done.
Qed.


Lemma agree_set key (v : option V) d sa sb :
  agrees sa sb ->
  sameOutcome (set (ser := ser) key v d sa) (Codec.set (ser := mp) key v d sb).
Proof.
  intros H. open_states sa sb H.
  unfold set, Codec.set, localSet. rewrite marshal_agrees.
  destruct (@marshal V mp v) as [b [e|]]; [done|]. run2.
  destruct l2 as [lc|]; simpl.
  - destruct r2 as [r|]; simpl; [|done]. by destruct (redis_Set key b d r).
  - destruct r2 as [r|]; simpl; [|done]. by destruct (redis_Set key b d r).
Qed.

Lemma agree_callFunc f sa sb :
  agrees sa sb -> sameOutcome (callFunc (V := V) f sa) (Codec.callFunc f sb).
Proof.
  intros H. open_states sa sb H. unfold callFunc, Codec.callFunc. simpl.
  by destruct (f u2).
Qed.

Lemma agree_exp item : Codec.exp (toCodecItem item) = exp item.
Proof. reflexivity. Qed.

Lemma agree_Set item sa sb :
  agrees sa sb ->
  sameOutcome (Set_ (ser := ser) item sa) (Codec.Set_ (ser := mp) (toCodecItem item) sb).
Proof.
  intros H. unfold Set_, Codec.Set_. apply sameOutcome_bind.
  - unfold value, Codec.object. simpl. destruct (Value item); [done|].
    destruct (Func item); [by apply agree_callFunc | done].
  - intros [v [e|]] sa' sb' H'; [done|]. apply sameOutcome_bind.
    + by apply agree_set.
    + by intros [b e].
Qed.

Lemma agree_get key tgt sa sb :
  agrees sa sb ->
  sameOutcome (Get (ser := ser) key tgt sa) (Codec.Get (ser := mp) key tgt sb).
Proof.
  intros H. unfold Get, get, Codec.Get, Codec.get. apply sameOutcome_bind.
  - by apply agree_getBytes.
  - intros [b [e|]] sa' sb' H'; [done|]. destruct tgt as [tgt|]; [|done].
    destruct (Z.of_nat (length b) =? 0); [done|].
    open_states sa' sb' H'. run2. rewrite unmarshal_agrees.
    by destruct (@unmarshal V mp b tgt).
Qed.

Lemma agree_Exists key sa sb :
  agrees sa sb ->
  sameOutcome (Exists (ser := ser) key sa) (Codec.Exists (ser := mp) key sb).
Proof.
  intros H. unfold Exists, Codec.Exists. apply sameOutcome_bind.
  - by apply agree_get.
  - by intros [e v].
Qed.

Lemma agree_Delete key sa sb :
  agrees sa sb -> sameOutcome (Delete key sa) (Codec.Delete key sb).
Proof.
  intros H. open_states sa sb H. unfold Delete, Codec.Delete. run2.
  destruct l2 as [lc|]; simpl.
  - destruct r2 as [r|]; simpl; [|done].
    destruct (redis_Del key r) as [r' [n [e|]]]; simpl; [done|]. by destruct (n =? 0).
  - destruct r2 as [r|]; simpl; [|done].
    destruct (redis_Del key r) as [r' [n [e|]]]; simpl; [done|]. by destruct (n =? 0).
Qed.

Lemma agree_getSetItemBytesOnce item sa sb :
  agrees sa sb ->
  sameOutcome (getSetItemBytesOnce (ser := ser) item sa)
    (Codec.getSetItemBytesOnce (ser := mp) (toCodecItem item) sb).
Proof.
  intros H.
  assert (Hfn : sameOutcome
                  (match onceFn (ser := ser) item sa with
                   | Ok (v, cached, Some err) s1 => Ok ([], false, Some err) s1
                   | r => r
                   end)
                  (match Codec.onceFn (ser := mp) (toCodecItem item) sb with
                   | Ok (v, cached, Some err) s1 => Ok ([], false, Some err) s1
                   | r => r
                   end)).
  { unfold onceFn, Codec.onceFn, bind.
    pose proof (agree_getBytes (Key item) sa sb H) as Hg. simpl.
    destruct (getBytes (Key item) sa) as [[b [e|]] sa'| |],
             (Codec.getBytes (Key item) sb) as [[b2 [e2|]] sb'| |];
      simpl in Hg; try done; destruct Hg as [? H']; simplify_eq; try done.
    destruct (Func item) as [f|]; [|done].
    pose proof (agree_callFunc f sa' sb' H') as Hf.
    destruct (callFunc f sa') as [[v [fe|]] sa2| |],
             (Codec.callFunc f sb') as [[v2 [fe2|]] sb2| |];
      simpl in Hf; try done; destruct Hf as [? H2]; simplify_eq; try done.
    pose proof (agree_set (Key item) v2 (exp item) sa2 sb2 H2) as Hs.
    rewrite agree_exp.
    destruct (set (ser := ser) (Key item) v2 (exp item) sa2) as [[b' [se|]] sa3| |],
             (Codec.set (ser := mp) (Key item) v2 (exp item) sb2) as [[b2' [se2|]] sb3| |];
      simpl in Hs; try done; destruct Hs as [? H3]; simplify_eq; done. }
  open_states sa sb H.
  unfold getSetItemBytesOnce, Codec.getSetItemBytesOnce, localGet, fastcache_HasGet,
    fastcache_Has.
  unfold bind at 1 2 3. unfold bind at 5 6. run2. unfold getOpt, Codec.getCodec. simpl.
  destruct l2 as [lc|]; simpl.
  - destruct (lc !! Key item) as [b|] eqn:Hk; simpl.
    + rewrite ?orb_true_r. simpl. done.
    + simpl.
      unfold bind in *.
      match goal with |- sameOutcome ?x ?y =>
        match type of Hfn with sameOutcome ?x' ?y' =>
          replace x with x'; [replace y with y'; [exact Hfn|]|] end end.
      * by destruct (Codec.onceFn _ _) as [[[? ?] [?|]] ?| |].
      * by destruct (onceFn _ _) as [[[? ?] [?|]] ?| |].
  - unfold bind in *.
    match goal with |- sameOutcome ?x ?y =>
      match type of Hfn with sameOutcome ?x' ?y' =>
        replace x with x'; [replace y with y'; [exact Hfn|]|] end end.
    + by destruct (Codec.onceFn _ _) as [[[? ?] [?|]] ?| |].
    + by destruct (onceFn _ _) as [[[? ?] [?|]] ?| |].
Qed.


Lemma agree_Once fuel :
  forall item sa sb,
    agrees sa sb ->
    sameOutcome (Once (ser := ser) fuel item sa)
      (Codec.Once (ser := mp) fuel (toCodecItem item) sb).
Proof.
  induction fuel as [|fuel IH]; intros item sa sb H; [done|].
  simpl. apply sameOutcome_bind.
  - by apply agree_getSetItemBytesOnce.
  - intros [[b cached] [e|]] sa' sb' H'; [done|].
    destruct (Value item) as [tgt|]; [|done].
    destruct (Z.of_nat (length b) =? 0); [done|].
    apply sameOutcome_bind.
    + open_states sa' sb' H'. done.
    + intros _ sa2 sb2 H2. rewrite unmarshal_agrees.
      destruct (@unmarshal V mp b tgt) as [v [de|]]; [|done].
      destruct cached; [|done]. apply sameOutcome_bind.
      * by apply agree_Delete.
      * intros _ sa3 sb3 H3. by apply (IH (withTarget item v)).
Qed.

(** X13.  Provided the encoder and decoder of the first revision
    ([marshal], [unmarshal]) compute the same functions as those of the
    second ([msgpack.Marshal], [msgpack.Unmarshal]): from states that
    agree, the first revision with the window 0 and the statistics enabled
    and the second revision give the same outcome for [Set], [Get],
    [Exists], [Delete] and [Once]: the same result, and states that agree
    again (same stores, remote counters, caller state and trace of
    calls). *)
Theorem revisions_agree_without_staleness item key tgt fuel sa sb :
  agrees sa sb ->
  sameOutcome (Set_ (ser := ser) item sa) (Codec.Set_ (ser := mp) (toCodecItem item) sb) /\
  sameOutcome (Get (ser := ser) key tgt sa) (Codec.Get (ser := mp) key tgt sb) /\
  sameOutcome (Exists (ser := ser) key sa) (Codec.Exists (ser := mp) key sb) /\
  sameOutcome (Delete key sa) (Codec.Delete key sb) /\
  sameOutcome (Once (ser := ser) fuel item sa)
    (Codec.Once (ser := mp) fuel (toCodecItem item) sb).
Proof.
  intros H. split; [by apply agree_Set|]. split; [by apply agree_get|].
  split; [by apply agree_Exists|]. split; [by apply agree_Delete|]. by apply agree_Once.
Qed.

End RevisionsAgree.

Section CodecProofs.

Context {V U R : Type} {redis : rediser R} {ser : serializer V}.

Implicit Types (s : @Codec.state U R).

(** X14.  [Stats()] of the second revision before and after a read that
    returns: with a local cache, the read adds one local hit when the key
    is held locally (and then nothing else changes and the held bytes are
    returned) and one local miss otherwise; without one both local
    counters read 0.  A remote read adds one hit when it succeeds and one
    miss when it fails; a read without a remote call adds neither. *)
Theorem Codec_Stats_after_read key s b err s' a a' :
  Codec.getBytes key s = Ok (b, err) s' ->
  Codec.Codec_Stats s = Ok a s -> Codec.Codec_Stats s' = Ok a' s' ->
  match Codec.localCache (Codec.cd s) with
  | None => Codec.LocalHits a' = 0 /\ Codec.LocalMisses a' = 0
  | Some lc =>
      match lc !! key with
      | Some stored =>
          b = stored /\ err = None /\ Codec.calls s' = Codec.calls s /\
          Codec.LocalHits a' = AddUint64 (Codec.LocalHits a) /\
          Codec.LocalMisses a' = Codec.LocalMisses a /\
          Codec.Hits a' = Codec.Hits a /\ Codec.Misses a' = Codec.Misses a
      | None =>
          Codec.LocalHits a' = Codec.LocalHits a /\
          Codec.LocalMisses a' = AddUint64 (Codec.LocalMisses a)
      end
  end /\
  (Codec.calls s' = Codec.calls s ->
   Codec.Hits a' = Codec.Hits a /\ Codec.Misses a' = Codec.Misses a) /\
  (Codec.calls s' <> Codec.calls s ->
   Codec.calls s' = Codec.calls s ++ [CallRedisGet key] /\
   match err with
   | None => Codec.Hits a' = AddUint64 (Codec.Hits a) /\ Codec.Misses a' = Codec.Misses a
   | Some _ => Codec.Hits a' = Codec.Hits a /\ Codec.Misses a' = AddUint64 (Codec.Misses a)
   end).
Proof.
  destruct s as [[r l h m lh lm] u tr].
  unfold Codec.getBytes, Codec.Codec_Stats, fastcache_HasGet. run2.
  assert (Hne : forall e : event, tr ++ [e] <> tr).
  { intros e He. apply (f_equal length) in He. rewrite length_app in He. simpl in He. lia. }
  intros Hrun Ha. revert Hrun. destruct l as [lc|]; simpl in *; injection Ha as <-.
  - destruct (lc !! key) as [stored|] eqn:Hk; simpl.
    + intros [= <- <- <-]. simpl. intros [= <-]. simpl. by repeat split.
    + destruct r as [r|]; simpl.
      * destruct (redis_Get key r) as [r' [b' [e|]]]; simpl.
        -- destruct (is_redis_Nil e); intros [= <- <- <-]; simpl; intros [= <-]; simpl;
             (split; [done|]); split; [intros He; by apply Hne in He | done
                                      | intros He; by apply Hne in He | done].
        -- intros [= <- <- <-]; simpl. intros [= <-]; simpl. split; [done|].
           split; [intros He; by apply Hne in He | done].
      * intros [= <- <- <-]; simpl. intros [= <-]; simpl. by repeat split.
  - destruct r as [r|]; simpl.
    + destruct (redis_Get key r) as [r' [b' [e|]]]; simpl.
      * destruct (is_redis_Nil e); intros [= <- <- <-]; simpl; intros [= <-]; simpl;
          (split; [done|]); split; [intros He; by apply Hne in He | done
                                   | intros He; by apply Hne in He | done].
      * intros [= <- <- <-]; simpl. intros [= <-]; simpl. split; [done|].
        split; [intros He; by apply Hne in He | done].
    + intros [= <- <- <-]; simpl. intros [= <-]; simpl. by repeat split.
Qed.

(** X15.  [UseLocalCache] does not depend on its arguments and installs
    an empty local cache: without a remote store, every key is then a
    miss. *)
Theorem UseLocalCache_starts_empty maxLen expiration maxLen' expiration' key tgt s :
  Codec.UseLocalCache maxLen expiration s = Codec.UseLocalCache maxLen' expiration' s /\
  exists s1,
    Codec.UseLocalCache maxLen expiration s = Ok tt s1 /\
    Codec.localCache (Codec.cd s1) = Some ∅ /\
    (Codec.Redis (Codec.cd s) = None ->
     result (Codec.Get (ser := ser) key tgt s1) = Some (Some ErrCacheMiss, tgt)).
Proof.
  split; [reflexivity|]. eexists. split; [reflexivity|]. split; [reflexivity|].
  intros Hr. destruct s as [[r l h m lh lm] u tr]. simpl in Hr. subst r.
  unfold Codec.Get, Codec.get, Codec.getBytes, fastcache_HasGet. run2.
  rewrite lookup_empty. reflexivity.
Qed.

End CodecProofs.



(** * The further properties on concrete caches *)

Section MoreInstances.

#[local] Existing Instance tagSerializer.
#[local] Existing Instance secondsCodec.

(** Witness of X1: a remote hit with the statistics enabled. *)
Lemma getBytes_statistics_witness :
  exists s1,
    getBytes "k" (startAt (mkOptions (Some (redisHolding "k" payload)) None 0 true) 0)
      = Ok (payload, None) s1 /\
    Cache_Stats (startAt (mkOptions (Some (redisHolding "k" payload)) None 0 true) 0)
      = Ok (Some (mkStats 0 0))
           (startAt (mkOptions (Some (redisHolding "k" payload)) None 0 true) 0) /\
    Cache_Stats s1 = Ok (Some (mkStats 1 0)) s1 /\
    calls s1 = [CallRedisGet "k"].
Proof.
  set (s0 := startAt (mkOptions (Some (redisHolding "k" payload)) None 0 true) 0).
  eassert (Hrun : getBytes "k" s0 = Ok (payload, None) _) by (vm_compute; reflexivity).
  match type of Hrun with
  | _ = Ok _ ?s1 =>
      assert (Hst' : Cache_Stats s1 = Ok (Some (mkStats 1 0)) s1) by reflexivity
  end.
  pose proof (getBytes_statistics (codec := secondsCodec) "k" s0 payload None _
                (Some (mkStats 0 0)) (Some (mkStats 1 0)) Hrun eq_refl Hst') as Hcases.
  simpl in Hcases.
  eexists. split; [exact Hrun|]. split; [reflexivity|]. split; [exact Hst'|].
  destruct Hcases as [(Hc & Hh & _)|[(Hc & _)|(_ & He & _)]];
    [discriminate Hh | exact Hc | by destruct He].
Defined.

(** Witness of X2: a key that the remote store does not hold. *)
Lemma Get_reports_remote_failure_witness :
  redis_Get "k" emptyRedis = (emptyRedis, ([], Some redis_Nil)) /\
  exists s',
    Get "k" (Some payload) (startAt (remoteOnly emptyRedis) 0)
      = Ok (Some ErrCacheMiss, Some payload) s' /\
    Exists "k" (startAt (remoteOnly emptyRedis) 0) = Ok false s' /\
    calls s' = [CallRedisGet "k"].
Proof.
  set (s0 := startAt (remoteOnly emptyRedis) 0).
  assert (Hr : Redis (opt (cd s0)) = Some emptyRedis) by reflexivity.
  assert (Hg : redis_Get "k" emptyRedis = (emptyRedis, ([], Some redis_Nil))) by reflexivity.
  split; [exact Hg|].
  destruct (Get_reports_remote_failure (ser := tagSerializer) (codec := secondsCodec)
              "k" (Some payload) s0 emptyRedis emptyRedis [] redis_Nil
              (or_introl eq_refl) Hr Hg) as (s' & HGet & HEx & _ & Hc).
  exists s'. split; [exact HGet|]. split; [exact HEx | exact Hc].
Defined.

(** Witness of X3: window 50ms, second read 20ms later. *)
Lemma remote_hit_repairs_local_witness :
  exists s1,
    getBytes "k"
        (startAt (mkOptions (Some (redisHolding "k" payload)) (Some ∅)
                    (50 * Millisecond) false) T0)
      = Ok (payload, None) s1 /\
    calls s1 = [CallRedisGet "k"] /\
    getBytes "k" (atTime (T0 + 20 * Millisecond) s1)
      = Ok (payload, None) (atTime (T0 + 20 * Millisecond) s1).
Proof.
  set (s0 := startAt (mkOptions (Some (redisHolding "k" payload)) (Some ∅)
                        (50 * Millisecond) false) T0).
  assert (Hl : LocalCache (opt (cd s0)) <> None) by done.
  assert (Hm : exists b0, localGet "k" s0 = Ok (b0, false) s0) by (by exists []).
  assert (Hr : Redis (opt (cd s0)) = Some (redisHolding "k" payload)) by reflexivity.
  assert (Hg : redis_Get "k" (redisHolding "k" payload)
               = (redisHolding "k" payload, (payload, None))) by reflexivity.
  apply (remote_hit_repairs_local (codec := secondsCodec) "k" s0 _ _ payload
           (T0 + 20 * Millisecond) Hl Hm Hr Hg).
  - vm_compute. reflexivity.
  - right. split; [reflexivity|]. split; [done|]. vm_compute. discriminate.
Defined.

(** Witness of X4: deleting a key that was never cached. *)
Lemma Delete_local_only_always_succeeds_witness :
  exists s',
    Delete "k" (startAt (localOnly (-1) ∅) 0) = Ok None s' /\
    LocalCache (opt (cd s')) = Some (delete "k" ∅) /\
    calls s' = [] /\
    Get "k" (Some payload) s' = Ok (Some ErrCacheMiss, Some payload) s'.
Proof.
  exact (Delete_local_only_always_succeeds (ser := tagSerializer) (codec := secondsCodec)
           "k" (Some payload) (startAt (localOnly (-1) ∅) 0) ∅ eq_refl eq_refl).
Defined.

(** Witness of X5: a read-only remote store. *)
Lemma failed_remote_write_stays_readable_witness :
  exists s1 s2,
    Set_ (putItem Hour) (startAt (mkOptions (Some readOnlyRedis) (Some ∅) (-1) false) T0)
      = Ok (Some (errorString "READONLY")) s1 /\
    (sleepUntil (T0 + 3 * Hour) ;;; Get "k" (Some [])) s1 = Ok (None, Some payload) s2 /\
    calls s2 = [CallRedisSet "k" [x01; x2a] Hour; CallUnmarshal [x01; x2a]].
Proof.
  set (s0 := startAt (mkOptions (Some readOnlyRedis) (Some ∅) (-1) false) T0).
  assert (Hl : LocalCache (opt (cd s0)) <> None) by done.
  assert (Hr : Redis (opt (cd s0)) = Some readOnlyRedis) by reflexivity.
  assert (Hf : snd (redis_Set "k" [x01; x2a] Hour readOnlyRedis)
               = Some (errorString "READONLY")) by reflexivity.
  apply (failed_remote_write_stays_readable (ser := tagSerializer) (codec := secondsCodec)
           (putItem Hour) payload [x01; x2a] [] s0 readOnlyRedis (errorString "READONLY")
           (T0 + 3 * Hour) tagSerializer_round_trip eq_refl eq_refl ltac:(done) Hl Hr Hf).
  - vm_compute. reflexivity.
  - left. reflexivity.
Defined.

(** Witness of X6: an item with both [Value] and [Func], and an item
    with [Func] only. *)
Lemma Set_takes_Value_before_Func_witness :
  (exists s',
     Set_ (mkItem "k" (Some payload) Hour (Some (counting fresh)))
          (startAt (remoteOnly emptyRedis) 0) = Ok None s' /\
     env s' = 0%nat /\
     calls s' = [CallRedisSet "k" [x01; x2a] Hour]) /\
  (exists s',
     Set_ (mkItem "k" None Hour (Some (counting fresh)))
          (startAt (remoteOnly emptyRedis) 0) = Ok None s' /\
     env s' = 1%nat /\
     calls s' = [CallFunc; CallRedisSet "k" [x01; x07] Hour]).
Proof.
  set (s0 := startAt (remoteOnly emptyRedis) 0).
  set (item := @mkItem (list byte) nat "k" (Some payload) Hour (Some (counting fresh))).
  set (item' := @mkItem (list byte) nat "k" None Hour (Some (counting fresh))).
  assert (Hr : Redis (opt (cd s0)) = Some emptyRedis) by reflexivity.
  destruct (Set_takes_Value_before_Func (ser := tagSerializer) (codec := secondsCodec)
              item s0) as (_ & Hvalue).
  destruct (Set_takes_Value_before_Func (ser := tagSerializer) (codec := secondsCodec)
              item' s0) as (_ & Hfunc).
  destruct (Hvalue (Some payload) s0) as (_ & _ & Hwrite).
  { left. by exists payload. }
  destruct (Hfunc (Some fresh) (afterFunc 1%nat s0)) as (_ & _ & Hwrite').
  { right. left. by exists (counting fresh), 1%nat. }
  destruct (Hwrite [x01; x2a] eq_refl) as (Hremote & _).
  destruct (Hwrite' [x01; x07] eq_refl) as (Hremote' & _).
  split.
  - eexists. split; [exact (Hremote emptyRedis Hr)|]. split; reflexivity.
  - eexists. split; [exact (Hremote' emptyRedis Hr)|]. split; reflexivity.
Defined.

(** Witness of X7: a missing key and an item without [Func]. *)
Lemma Once_without_Func_panics_on_miss_witness :
  result (getBytes "k" (startAt (remoteOnly emptyRedis) 0))
    = Some ([], Some ErrCacheMiss) /\
  Once 1 (mkItem "k" (Some []) Hour None) (startAt (remoteOnly emptyRedis) 0)
    = Panicked "nil pointer dereference".
Proof.
  set (s0 := startAt (remoteOnly emptyRedis) 0).
  eassert (Hread : getBytes "k" s0 = Ok ([], Some ErrCacheMiss) _)
    by (vm_compute; reflexivity).
  split; [by rewrite Hread|].
  exact (Once_without_Func_panics_on_miss (ser := tagSerializer) (codec := secondsCodec)
           0 (mkItem "k" (Some []) Hour None) s0 [] ErrCacheMiss _ Hread eq_refl).
Defined.

(** Witness of X8: empty tiers, window 50ms, second call 20ms later. *)
Lemma Once_computes_once_witness :
  exists s1,
    Once 1 (onceItem (Some []) (counting fresh))
        (startAt (mkOptions (Some emptyRedis) (Some ∅) (50 * Millisecond) false) T0)
      = Ok (None, Some fresh) s1 /\
    env s1 = 1%nat /\
    calls s1 = [CallRedisGet "k"; CallFunc; CallRedisSet "k" [x01; x07] Hour;
                CallUnmarshal [x01; x07]] /\
    Once 1 (onceItem (Some []) (counting fresh)) (atTime (T0 + 20 * Millisecond) s1)
      = Ok (None, Some fresh)
           (withCall (CallUnmarshal [x01; x07]) (atTime (T0 + 20 * Millisecond) s1)).
Proof.
  set (s0 := startAt (mkOptions (Some emptyRedis) (Some ∅) (50 * Millisecond) false) T0).
  assert (Hl : LocalCache (opt (cd s0)) = Some ∅) by reflexivity.
  assert (Hr : Redis (opt (cd s0)) = Some emptyRedis) by reflexivity.
  assert (Hg : redis_Get "k" emptyRedis = (emptyRedis, ([], Some redis_Nil))) by reflexivity.
  assert (Hs : snd (redis_Set "k" [x01; x07] Hour emptyRedis) = None) by reflexivity.
  apply (Once_computes_once (ser := tagSerializer) (codec := secondsCodec)
           0 0 (onceItem (Some []) (counting fresh)) s0 ∅ emptyRedis emptyRedis []
           redis_Nil (counting fresh) 1%nat fresh [x01; x07] [] (T0 + 20 * Millisecond)
           tagSerializer_round_trip eq_refl eq_refl Hl ltac:(done) Hr Hg eq_refl eq_refl
           ltac:(done) Hs).
  - vm_compute. reflexivity.
  - right. vm_compute. split; [reflexivity | discriminate].
Defined.

(** Witness of X9: the remote store holds bytes without the tag. *)
Lemma Once_heals_undecodable_entry_witness :
  exists s',
    Once 2 (onceItem (Some []) (counting fresh))
        (startAt (mkOptions (Some (redisHolding "k" corrupt)) (Some ∅) (-1) false) 0)
      = Ok (None, Some fresh) s' /\
    env s' = 1%nat /\
    calls s' = [CallRedisGet "k"; CallUnmarshal corrupt; CallRedisDel "k";
                CallRedisGet "k"; CallFunc; CallRedisSet "k" [x01; x07] Hour;
                CallUnmarshal [x01; x07]].
Proof.
  set (s0 := startAt (mkOptions (Some (redisHolding "k" corrupt)) (Some ∅) (-1) false) 0).
  assert (Hk : forall lc, LocalCache (opt (cd s0)) = Some lc -> lc !! "k" = None)
    by (by intros lc [= <-]).
  assert (Hr : Redis (opt (cd s0)) = Some (redisHolding "k" corrupt)) by reflexivity.
  assert (Hg : redis_Get "k" (redisHolding "k" corrupt)
               = (redisHolding "k" corrupt, (corrupt, None))) by reflexivity.
  assert (Hd : redis_Del "k" (redisHolding "k" corrupt) = (emptyRedis, (1, None)))
    by reflexivity.
  assert (Hg2 : redis_Get "k" emptyRedis = (emptyRedis, ([], Some redis_Nil)))
    by reflexivity.
  assert (Hs : snd (redis_Set "k" [x01; x07] Hour emptyRedis) = None) by reflexivity.
  exact (Once_heals_undecodable_entry (ser := tagSerializer) (codec := secondsCodec)
           0 (onceItem (Some []) (counting fresh)) s0 _ _ _ _ corrupt [] []
           (errorString "decode: bad tag") 1 None [] redis_Nil (counting fresh) 1%nat
           fresh [x01; x07] eq_refl eq_refl Hk Hr Hg ltac:(done) eq_refl Hd Hg2
           eq_refl eq_refl ltac:(done) Hs eq_refl).
Defined.

(** Witness of X10: TTLs of -5ns, 0 and two hours. *)
Lemma exp_is_zero_or_at_least_a_second_witness :
  exp (putItem (-5)) = 0 /\ Second <= exp (putItem 0) /\ Second <= exp (putItem (2 * Hour)).
Proof.
  destruct (exp_is_zero_or_at_least_a_second (putItem (-5))) as ([_ Hneg] & _).
  destruct (exp_is_zero_or_at_least_a_second (putItem 0)) as (_ & Hzero & _).
  destruct (exp_is_zero_or_at_least_a_second (putItem (2 * Hour))) as (_ & Hpos & _).
  split; [apply Hneg; reflexivity|]. split; [apply Hzero | apply Hpos]; vm_compute; discriminate.
Defined.

(** Witness of X11: options configured with -1, with 0 and with 50ms. *)
Lemma init_twice_witness :
  LocalCacheTTL (init (localOnly (-1) ∅)) = 0 /\
  LocalCacheTTL (init (init (localOnly (-1) ∅))) = Minute /\
  init (init (localOnly (-1) ∅)) <> init (localOnly (-1) ∅) /\
  init (init (localOnly 0 ∅)) = init (localOnly 0 ∅) /\
  init (init (localOnly (50 * Millisecond) ∅)) = init (localOnly (50 * Millisecond) ∅).
Proof.
  destruct (init_twice (localOnly (-1) ∅)) as (_ & [_ Hzero] & _ & Htwice & [Hnot _] & _).
  destruct (init_twice (localOnly 0 ∅)) as (_ & _ & _ & _ & [_ Hidem0] & _).
  destruct (init_twice (localOnly (50 * Millisecond) ∅)) as (_ & _ & _ & _ & [_ Hidem] & _).
  split; [by apply Hzero|]. split; [by apply Htwice|]. split; [|split].
  - intros Heq. by apply (Hnot Heq).
  - apply Hidem0. vm_compute. discriminate.
  - apply Hidem. vm_compute. discriminate.
Defined.

(** Witness of X12: window 50ms, entry written 100ms before the read. *)
Lemma stale_entry_is_a_miss_and_stays_witness :
  Get "k" (Some [])
      (mkState (mkCache (localOnly (50 * Millisecond)
                           {[ "k" := payload ++ stamp_bytes (encodeTime T0) ]}) 0 0)
               (T0 + 100 * Millisecond) 0%nat [])
    = Ok (Some ErrCacheMiss, Some [])
         (mkState (mkCache (localOnly (50 * Millisecond)
                              {[ "k" := payload ++ stamp_bytes (encodeTime T0) ]}) 0 0)
                  (T0 + 100 * Millisecond) 0%nat []).
Proof.
  set (lc := {[ "k" := payload ++ stamp_bytes (encodeTime T0) ]} : gmap string (list byte)).
  set (s0 := mkState (mkCache (localOnly (50 * Millisecond) lc) 0 0)
                     (T0 + 100 * Millisecond) 0%nat []).
  assert (Hl : LocalCache (opt (cd s0)) = Some lc) by reflexivity.
  assert (Hk : lc !! "k" = Some (payload ++ stamp_bytes (encodeTime T0))) by reflexivity.
  assert (Hw : 0 < LocalCacheTTL (opt (cd s0))) by reflexivity.
  assert (Hage : Since (clock s0) (decodeTime (encodeTime T0)) > LocalCacheTTL (opt (cd s0)))
    by (vm_compute; reflexivity).
  exact (proj1 (stale_entry_is_a_miss_and_stays (ser := tagSerializer)
                  (codec := secondsCodec) "k" (Some []) s0 lc payload (encodeTime T0)
                  Hl Hk ltac:(done) Hw Hage eq_refl)).
Defined.

(** Witness of X13: [Once] in both revisions on the same remote entry. *)
Lemma revisions_agree_without_staleness_witness :
  agrees (startAt (mkOptions (Some (redisHolding "k" [x01; x2a])) (Some ∅) (-1) true) 0)
         (codecStart (Some (redisHolding "k" [x01; x2a])) (Some ∅)) /\
  sameOutcome
    (Once 1 (onceItem (Some []) (counting fresh))
       (startAt (mkOptions (Some (redisHolding "k" [x01; x2a])) (Some ∅) (-1) true) 0))
    (Codec.Once 1 (toCodecItem (onceItem (Some []) (counting fresh)))
       (codecStart (Some (redisHolding "k" [x01; x2a])) (Some ∅))) /\
  result (Codec.Once 1 (toCodecItem (onceItem (Some []) (counting fresh)))
            (codecStart (Some (redisHolding "k" [x01; x2a])) (Some ∅)))
    = Some (None, Some payload).
Proof.
  set (sa := startAt (mkOptions (Some (redisHolding "k" [x01; x2a])) (Some ∅) (-1) true) 0).
  set (sb := codecStart (Some (redisHolding "k" [x01; x2a])) (Some ∅)).
  assert (H : agrees sa sb) by (repeat split; reflexivity).
  split; [exact H|]. split; [|vm_compute; reflexivity].
  exact (proj2 (proj2 (proj2 (proj2
           (revisions_agree_without_staleness (codec := secondsCodec)
              tagSerializer tagSerializer (fun _ => eq_refl) (fun _ _ => eq_refl)
              (onceItem (Some []) (counting fresh)) "k" None 1 sa sb H))))).
Defined.

(** Witness of X14: a local miss followed by a remote hit. *)
Lemma Codec_Stats_after_read_witness :
  exists s',
    Codec.getBytes "k" (codecStart (Some (redisHolding "k" payload)) (Some ∅))
      = Ok (payload, None) s' /\
    Codec.Codec_Stats s' = Ok (Codec.mkStats 1 0 0 1) s' /\
    Codec.calls s' = [CallRedisGet "k"].
Proof.
  set (s0 := codecStart (Some (redisHolding "k" payload)) (Some ∅)).
  eassert (Hrun : Codec.getBytes "k" s0 = Ok (payload, None) _) by (vm_compute; reflexivity).
  match type of Hrun with
  | _ = Ok _ ?s1 =>
      assert (Hst : Codec.Codec_Stats s1 = Ok (Codec.mkStats 1 0 0 1) s1) by reflexivity
  end.
  destruct (Codec_Stats_after_read "k" s0 payload None _ (Codec.mkStats 0 0 0 0)
              (Codec.mkStats 1 0 0 1) Hrun eq_refl Hst) as (_ & _ & Hremote).
  eexists. split; [exact Hrun|]. split; [exact Hst|].
  apply Hremote. vm_compute. discriminate.
Defined.

(** Witness of X15: a codec that held the key before the call. *)
Lemma UseLocalCache_starts_empty_witness :
  exists s1,
    Codec.UseLocalCache 1000 Minute (codecStart None (Some {[ "k" := payload ]})) = Ok tt s1 /\
    Codec.localCache (Codec.cd s1) = Some ∅ /\
    result (Codec.Get "k" (Some []) s1) = Some (Some ErrCacheMiss, Some []).
Proof.
  destruct (UseLocalCache_starts_empty (ser := tagSerializer) 1000 Minute 0 0 "k" (Some [])
              (codecStart None (Some {[ "k" := payload ]}))) as (_ & s1 & Hrun & Hlc & Hget).
  exists s1. split; [exact Hrun|]. split; [exact Hlc|]. by apply Hget.
Defined.

End MoreInstances.
